(** * Run supervisor of the options-trading application

    A shallow embedding of [app/runner_service.py] (class [RunnerService]),
    of the endpoints of [app/routers/runs.py] and of the heartbeat loop of
    [strategies/runner.py], with the properties of the run state machine
    proved or refuted against it.

    Modelling conventions.
    - The two PostgreSQL tables [runs] and [run_events] are lists of rows.
      An [UPDATE ... WHERE] maps over the rows, [cursor.rowcount] counts the
      rows the [WHERE] clause selects, a [SELECT] filters.  A [SELECT]
      without [ORDER BY] returns its rows in an order the database chooses;
      the choice is read from the environment ([row_order]).
    - Timestamps are integers (seconds).  Every [datetime.now()] and every
      column default [CURRENT_TIMESTAMP] is an explicit argument.
    - The in-memory dictionaries [running_processes] and [process_info] are
      insertion-ordered association lists, as Python dictionaries are.
    - What the operating system answers ([subprocess.Popen], [process.poll],
      [process.wait], [psutil.pid_exists], signal delivery) is read from an
      environment record [Env]; a [Popen] object is identified by its pid.
    - A call returns a value or raises an exception ([Outcome]); what was
      committed before the exception stays committed.  The one statement
      that cannot be run is the [INSERT] of [add_event]; a database that
      cannot be reached is not modelled.  [print] calls are omitted.
    - Each [conn.commit()] makes one store observable.  The field
      [observed] records these stores, newest first; it is a history
      variable that no operation reads.
    - The service, the clients of the endpoints and the children are
      processes of their own that share the database.  [System] and [step]
      put them together, one statement at a time. *)

From Stdlib Require Import ZArith List String Bool Lia DecimalString
  Permutation.
Import ListNotations.

Open Scope string_scope.
Open Scope list_scope.
Open Scope Z_scope.

(** ** The data model *)

(** The values written to the TEXT column [runs.status]. *)
Inductive Status : Type :=
  | Pending | Starting | Running | Stopping | Stopped | Error | Dead.

Definition status_eqb (a b : Status) : bool :=
  match a, b with
  | Pending, Pending | Starting, Starting | Running, Running
  | Stopping, Stopping | Stopped, Stopped | Error, Error | Dead, Dead => true
  | _, _ => false
  end.

Definition status_text (s : Status) : string :=
  match s with
  | Pending => "pending" | Starting => "starting" | Running => "running"
  | Stopping => "stopping" | Stopped => "stopped" | Error => "error"
  | Dead => "dead"
  end.

Definition terminal (s : Status) : bool :=
  match s with
  | Stopped | Error | Dead => true
  | _ => false
  end.

(** A row of the table [runs] ([create_tables], lines 36-53). *)
Record Run : Type := mkRun {
  r_id : Z;
  r_strategy_id : Z;
  r_requested_by : option string;
  r_cfg : option (list (string * string));
  r_status : Status;
  r_pid : option Z;
  r_host : option string;
  r_started_at : option Z;
  r_stopped_at : option Z;
  r_last_heartbeat : option Z;
  r_exit_code : option Z;
  r_notes : option string;
  r_created_at : Z;
  r_updated_at : Z
}.

(** A row of the table [run_events] (lines 56-64). *)
Record RunEvent : Type := mkEvent {
  e_run_id : Z;
  e_ts : Z;
  e_level : string;
  e_message : string
}.

Record Store : Type := mkStore {
  runs : list Run;
  run_events : list RunEvent
}.

(** The entries of [process_info]. *)
Record ProcInfo : Type := mkInfo {
  pi_pid : Z;
  pi_started_at : Z;
  pi_log_file : string
}.

(** The service object together with the database it talks to. *)
Record State : Type := mkState {
  db : Store;
  running_processes : list (Z * Z);
  process_info : list (Z * ProcInfo);
  observed : list Store
}.

(** ** Python dictionaries keyed by run id *)

Section Dict.
Context {V : Type}.

Fixpoint dict_get (k : Z) (d : list (Z * V)) : option V :=
  match d with
  | [] => None
  | (k', v) :: d' => if k =? k' then Some v else dict_get k d'
  end.

Definition dict_mem (k : Z) (d : list (Z * V)) : bool :=
  match dict_get k d with Some _ => true | None => false end.

(** [d[k] = v]: an existing key keeps its position. *)
Fixpoint dict_set (k : Z) (v : V) (d : list (Z * V)) : list (Z * V) :=
  match d with
  | [] => [(k, v)]
  | (k', v') :: d' =>
      if k =? k' then (k, v) :: d' else (k', v') :: dict_set k v d'
  end.

(** [del d[k]]. *)
Definition dict_del (k : Z) (d : list (Z * V)) : list (Z * V) :=
  filter (fun kv => negb (fst kv =? k)) d.
End Dict.

(** ** Text helpers *)

(** Python's [str] on an integer. *)
Definition str (z : Z) : string := NilEmpty.string_of_int (Z.to_int z).

(** ** Statements on the store *)

(** [UPDATE runs SET ... WHERE ...]. *)
Definition sql_update (where_ : Run -> bool) (set_ : Run -> Run)
    (rows : list Run) : list Run :=
  map (fun r => if where_ r then set_ r else r) rows.

(** [cursor.rowcount] after such an [UPDATE]. *)
Definition rowcount (where_ : Run -> bool) (rows : list Run) : nat :=
  List.length (filter where_ rows).

(** One [column = %s] item of a [SET] clause. *)
Inductive Assignment : Type :=
  | set_requested_by (v : string)
  | set_pid (v : Z)
  | set_host (v : string)
  | set_started_at (v : Z)
  | set_stopped_at (v : Z)
  | set_last_heartbeat (v : Z)
  | set_exit_code (v : Z)
  | set_notes (v : string)
  | set_status (v : Status)
  | set_updated_at (v : Z).

Definition assign (a : Assignment) (r : Run) : Run :=
  match a with
  | set_requested_by v =>
      mkRun (r_id r) (r_strategy_id r) (Some v) (r_cfg r) (r_status r)
        (r_pid r) (r_host r) (r_started_at r) (r_stopped_at r)
        (r_last_heartbeat r) (r_exit_code r) (r_notes r) (r_created_at r)
        (r_updated_at r)
  | set_pid v =>
      mkRun (r_id r) (r_strategy_id r) (r_requested_by r) (r_cfg r)
        (r_status r) (Some v) (r_host r) (r_started_at r) (r_stopped_at r)
        (r_last_heartbeat r) (r_exit_code r) (r_notes r) (r_created_at r)
        (r_updated_at r)
  | set_host v =>
      mkRun (r_id r) (r_strategy_id r) (r_requested_by r) (r_cfg r)
        (r_status r) (r_pid r) (Some v) (r_started_at r) (r_stopped_at r)
        (r_last_heartbeat r) (r_exit_code r) (r_notes r) (r_created_at r)
        (r_updated_at r)
  | set_started_at v =>
      mkRun (r_id r) (r_strategy_id r) (r_requested_by r) (r_cfg r)
        (r_status r) (r_pid r) (r_host r) (Some v) (r_stopped_at r)
        (r_last_heartbeat r) (r_exit_code r) (r_notes r) (r_created_at r)
        (r_updated_at r)
  | set_stopped_at v =>
      mkRun (r_id r) (r_strategy_id r) (r_requested_by r) (r_cfg r)
        (r_status r) (r_pid r) (r_host r) (r_started_at r) (Some v)
        (r_last_heartbeat r) (r_exit_code r) (r_notes r) (r_created_at r)
        (r_updated_at r)
  | set_last_heartbeat v =>
      mkRun (r_id r) (r_strategy_id r) (r_requested_by r) (r_cfg r)
        (r_status r) (r_pid r) (r_host r) (r_started_at r) (r_stopped_at r)
        (Some v) (r_exit_code r) (r_notes r) (r_created_at r)
        (r_updated_at r)
  | set_exit_code v =>
      mkRun (r_id r) (r_strategy_id r) (r_requested_by r) (r_cfg r)
        (r_status r) (r_pid r) (r_host r) (r_started_at r) (r_stopped_at r)
        (r_last_heartbeat r) (Some v) (r_notes r) (r_created_at r)
        (r_updated_at r)
  | set_notes v =>
      mkRun (r_id r) (r_strategy_id r) (r_requested_by r) (r_cfg r)
        (r_status r) (r_pid r) (r_host r) (r_started_at r) (r_stopped_at r)
        (r_last_heartbeat r) (r_exit_code r) (Some v) (r_created_at r)
        (r_updated_at r)
  | set_status v =>
      mkRun (r_id r) (r_strategy_id r) (r_requested_by r) (r_cfg r) v
        (r_pid r) (r_host r) (r_started_at r) (r_stopped_at r)
        (r_last_heartbeat r) (r_exit_code r) (r_notes r) (r_created_at r)
        (r_updated_at r)
  | set_updated_at v =>
      mkRun (r_id r) (r_strategy_id r) (r_requested_by r) (r_cfg r)
        (r_status r) (r_pid r) (r_host r) (r_started_at r) (r_stopped_at r)
        (r_last_heartbeat r) (r_exit_code r) (r_notes r) (r_created_at r) v
  end.

(** A [SET] clause assigns its items from left to right. *)
Definition assign_all (fields : list Assignment) (r : Run) : Run :=
  fold_left (fun acc a => assign a acc) fields r.

(** [conn.commit()]: the store becomes the database and is observable. *)
Definition commit (st : Store) (s : State) : State :=
  mkState st (running_processes s) (process_info s) (st :: observed s).

(** ** Exceptions *)

(** The exceptions that occur: the error of [cursor.execute] for a
    statement that cannot be run, and the error of starting or signalling
    a process.  Both are subclasses of [Exception] and carry the text
    [str(e)] gives. *)
Inductive Exception : Type :=
  | ExecuteError (text : string)
  | OSError (text : string).

Definition str_exception (x : Exception) : string :=
  match x with
  | ExecuteError text => text
  | OSError text => text
  end.

(** What a call comes to: it returns a value, or it raises; either way it
    leaves a state behind. *)
Inductive Outcome (A : Type) : Type :=
  | Returns (value : A) (s : State)
  | Raises (exc : Exception) (s : State).

Arguments Returns {A} value s.
Arguments Raises {A} exc s.

Definition state_of {A : Type} (o : Outcome A) : State :=
  match o with
  | Returns _ s => s
  | Raises _ s => s
  end.

Definition raised {A : Type} (o : Outcome A) : bool :=
  match o with
  | Returns _ _ => false
  | Raises _ _ => true
  end.

(** Sequencing: an exception ends what follows. *)
Definition and_then {A B : Type} (o : Outcome A)
    (k : A -> State -> Outcome B) : Outcome B :=
  match o with
  | Returns a s => k a s
  | Raises x s => Raises x s
  end.

(** [try: ... except Exception as e: ...]. *)
Definition try_except {A : Type} (body : Outcome A)
    (handler : Exception -> State -> Outcome A) : Outcome A :=
  match body with
  | Returns a s => Returns a s
  | Raises x s => handler x s
  end.

(** [for a in l: body(a)]. *)
Fixpoint for_each {A : Type} (body : A -> State -> Outcome unit)
    (l : list A) (s : State) : Outcome unit :=
  match l with
  | [] => Returns tt s
  | a :: l' => and_then (body a s) (fun _ s' => for_each body l' s')
  end.

(** ** [RunnerService.add_event] (lines 74-83)

    The statement of line 79 marks its three parameters with [?].  That
    is not a placeholder of psycopg2, which substitutes [%s], and not a
    parameter of PostgreSQL, which writes [$1]: [execute] cannot run the
    statement and raises, and lines 82-83 are not reached.  No row is
    inserted, whatever the arguments are.  The text of the error is
    abbreviated; nothing depends on it. *)
Definition add_event (run_id : Z) (level message : string) (s : State)
    : Outcome unit :=
  Raises (ExecuteError "INSERT INTO run_events") s.
(** ** [RunnerService.update_run_status] (lines 85-113)

    The keyword arguments: a key that is absent and a key given as [None]
    are both [None] here, the loop of lines 93-96 treats them alike. *)
Record Kwargs : Type := mkKwargs {
  kw_requested_by : option string;
  kw_pid : option Z;
  kw_host : option string;
  kw_started_at : option Z;
  kw_stopped_at : option Z;
  kw_last_heartbeat : option Z;
  kw_exit_code : option Z;
  kw_notes : option string
}.

Definition no_kwargs : Kwargs :=
  mkKwargs None None None None None None None None.

Definition item {A : Type} (mk : A -> Assignment) (v : option A)
    : list Assignment :=
  match v with
  | Some x => [mk x]
  | None => []
  end.

(** Lines 91-96: the items built from the arguments that are not [None]. *)
Definition kwargs_fields (kw : Kwargs) : list Assignment :=
  item set_requested_by (kw_requested_by kw)
  ++ item set_pid (kw_pid kw)
  ++ item set_host (kw_host kw)
  ++ item set_started_at (kw_started_at kw)
  ++ item set_stopped_at (kw_stopped_at kw)
  ++ item set_last_heartbeat (kw_last_heartbeat kw)
  ++ item set_exit_code (kw_exit_code kw)
  ++ item set_notes (kw_notes kw).

Definition update_run_status (now : Z) (run_id : Z) (status : Status)
    (kw : Kwargs) (s : State) : State :=
  let fields := kwargs_fields kw in
  let set_ :=
    match fields with
    | _ :: _ => assign_all (fields ++ [set_status status; set_updated_at now])
    | [] => assign_all [set_status status; set_updated_at now]
    end in
  commit
    (mkStore (sql_update (fun r => r_id r =? run_id) set_ (runs (db s)))
       (run_events (db s)))
    s.

(** ** The environment of one call *)

(** What lines 154-186 of [launch_strategy] end in: a [Popen] object with
    its pid, or the exception raised on the way (environment, log file,
    process creation). *)
Inductive Launch : Type :=
  | Spawned (pid : Z)
  | Raised (e : string).

Record Env : Type := mkEnv {
  (** [datetime.now()] when the call starts. *)
  now : Z;
  (** [datetime.now()] as [stop_strategy] reads it once its waits are over
      (lines 258-263 and 271). *)
  later : Z;
  (** [platform.node()]. *)
  node : string;
  (** The outcome of preparing and starting the child of a run. *)
  popen : Run -> Launch;
  (** [process.poll()] of the process with this pid: [None] while it runs,
      its return code once it has exited. *)
  poll : Z -> option Z;
  (** [psutil.pid_exists]. *)
  pid_exists : Z -> bool;
  (** Delivery of the termination request (SIGTERM to the group,
      CTRL_BREAK or [terminate]): [Some e] when it raises. *)
  send_term : Z -> option string;
  (** [process.wait(timeout)] after the termination request, by pid and
      timeout: the return code, or [None] for [TimeoutExpired]. *)
  wait_term : Z -> Z -> option Z;
  (** Delivery of the forced kill: [Some e] when it raises. *)
  send_kill : Z -> option string;
  (** The order in which a [SELECT] without [ORDER BY] returns its rows:
      by ascending rank, rows of equal rank in the order of the table. *)
  row_order : Run -> Z
}.

(** The rows of a [SELECT] in the order the database chose. *)
Fixpoint place (rank : Run -> Z) (r : Run) (rows : list Run) : list Run :=
  match rows with
  | [] => [r]
  | r' :: rest =>
      if rank r <=? rank r' then r :: rows else r' :: place rank r rest
  end.

Definition fetchall (e : Env) (rows : list Run) : list Run :=
  fold_right (place (row_order e)) [] rows.

(** ** [RunnerService.get_pending_runs] (lines 115-130) *)
Definition default_cfg (r : Run) : Run :=
  match r_cfg r with
  | Some _ => r
  | None =>
      mkRun (r_id r) (r_strategy_id r) (r_requested_by r) (Some [])
        (r_status r) (r_pid r) (r_host r) (r_started_at r) (r_stopped_at r)
        (r_last_heartbeat r) (r_exit_code r) (r_notes r) (r_created_at r)
        (r_updated_at r)
  end.

Definition get_pending_runs (e : Env) (s : State) : list Run :=
  map default_cfg
    (fetchall e
       (filter (fun r => status_eqb (r_status r) Pending) (runs (db s)))).

(** ** [RunnerService.claim_run] (lines 132-148)

    The [UPDATE] of line 137, committed at line 144. *)
Definition claim_update (now : Z) (run_id : Z) (s : State) : State :=
  commit
    (mkStore
       (sql_update
          (fun r => (r_id r =? run_id) && status_eqb (r_status r) Pending)
          (assign_all [set_status Starting; set_updated_at now])
          (runs (db s)))
       (run_events (db s)))
    s.

Definition claim_run (now : Z) (run_id : Z) (s : State) : Outcome bool :=
  let where_ := fun r => (r_id r =? run_id) && status_eqb (r_status r) Pending in
  let claimed := (0 <? rowcount where_ (runs (db s)))%nat in
  if claimed then
    and_then
      (add_event run_id "info" "Run claimed by runner service"
         (claim_update now run_id s))
      (fun _ s1 => Returns true s1)
  else Returns false s.

(** ** [RunnerService.launch_strategy] (lines 150-213) *)
Definition log_file (run_id : Z) : string :=
  "logs/run_" ++ str run_id ++ ".log".

Definition set_running_processes (d : list (Z * Z)) (s : State) : State :=
  mkState (db s) d (process_info s) (observed s).

Definition set_process_info (d : list (Z * ProcInfo)) (s : State) : State :=
  mkState (db s) (running_processes s) d (observed s).

(** The [try] block, lines 153-207. *)
Definition launch_body (e : Env) (run : Run) (s : State)
    : Outcome (option Z) :=
  match popen e run with
  | Raised msg => Raises (OSError msg) s
  | Spawned pid =>
      let s1 := set_running_processes
                  (dict_set (r_id run) pid (running_processes s)) s in
      let s2 := set_process_info
                  (dict_set (r_id run)
                     (mkInfo pid (now e) (log_file (r_id run)))
                     (process_info s1)) s1 in
      let s3 := update_run_status (now e) (r_id run) Running
                  (mkKwargs None (Some pid) (Some (node e)) (Some (now e))
                     None None None None) s2 in
      and_then
        (add_event (r_id run) "info"
           ("Strategy process started with PID " ++ str pid) s3)
        (fun _ s4 => Returns (Some pid) s4)
  end.

(** The handler, lines 209-213. *)
Definition launch_handler (e : Env) (run : Run) (x : Exception) (s : State)
    : Outcome (option Z) :=
  and_then
    (add_event (r_id run) "error"
       ("Failed to launch strategy: " ++ str_exception x) s)
    (fun _ s1 =>
       Returns None
         (update_run_status (now e) (r_id run) Error
            (mkKwargs None None None None None None (Some 1) None) s1)).

Definition launch_strategy (e : Env) (run : Run) (s : State)
    : Outcome (option Z) :=
  try_except (launch_body e run s) (launch_handler e run).

(** ** [RunnerService.stop_strategy] (lines 215-273) *)

(** Lines 253-255, and again lines 322-324. *)
Definition cleanup (run_id : Z) (s : State) : State :=
  let s1 := set_running_processes (dict_del run_id (running_processes s)) s in
  if dict_mem run_id (process_info s1)
  then set_process_info (dict_del run_id (process_info s1)) s1
  else s1.

(** Lines 253-267. *)
Definition stop_finish (e : Env) (run_id : Z) (exit_code : Z) (s : State)
    : Outcome bool :=
  let s1 := cleanup run_id s in
  let s2 := update_run_status (later e) run_id Stopped
              (mkKwargs None None None None (Some (later e)) None
                 (Some exit_code) None) s1 in
  and_then
    (add_event run_id "info"
       ("Strategy stopped with exit code " ++ str exit_code) s2)
    (fun _ s3 => Returns true s3).

(** The [try] block, lines 221-267. *)
Definition stop_body (e : Env) (run_id pid : Z) (grace_period : Z)
    (s : State) : Outcome bool :=
  let s1 := update_run_status (now e) run_id Stopping no_kwargs s in
  and_then
    (add_event run_id "info"
       ("Stopping strategy (grace period: " ++ str grace_period ++ "s)") s1)
    (fun _ s2 =>
       match send_term e pid with
       | Some msg => Raises (OSError msg) s2
       | None =>
           match wait_term e pid grace_period with
           | Some exit_code => stop_finish e run_id exit_code s2
           | None =>
               and_then
                 (add_event run_id "warn"
                    "Grace period exceeded, force killing process" s2)
                 (fun _ s3 =>
                    match send_kill e pid with
                    | Some msg => Raises (OSError msg) s3
                    | None => stop_finish e run_id (-1) s3
                    end)
           end
       end).

(** The handler, lines 269-273. *)
Definition stop_handler (e : Env) (run_id : Z) (x : Exception) (s : State)
    : Outcome bool :=
  and_then
    (add_event run_id "error"
       ("Error stopping strategy: " ++ str_exception x) s)
    (fun _ s1 =>
       Returns false (update_run_status (later e) run_id Error no_kwargs s1)).

Definition stop_strategy (e : Env) (run_id : Z) (grace_period : Z)
    (s : State) : Outcome bool :=
  match dict_get run_id (running_processes s) with
  | None => Returns false s
  | Some pid =>
      try_except (stop_body e run_id pid grace_period s)
        (stop_handler e run_id)
  end.

(** ** [RunnerService.check_heartbeats] (lines 275-301) *)

(** The [WHERE] clause of line 283. *)
Definition stale (threshold : Z) (r : Run) : bool :=
  status_eqb (r_status r) Running
  && match r_last_heartbeat r with
     | None => true
     | Some hb => hb <? threshold
     end.

(** Lines 281-287: the rows the [SELECT] returns. *)
Definition stale_runs (e : Env) (s : State) : list (Z * option Z) :=
  map (fun r => (r_id r, r_pid r))
    (fetchall e (filter (stale (now e - 30)) (runs (db s)))).

(** Python's truth value of the column [pid]. *)
Definition truthy (pid : option Z) : bool :=
  match pid with
  | Some p => negb (p =? 0)
  | None => false
  end.

(** The test of line 289, [pid and not psutil.pid_exists(pid)]. *)
Definition gone (e : Env) (pid : option Z) : bool :=
  truthy pid && negb (match pid with
                      | Some p => pid_exists e p
                      | None => false
                      end).

(** The body of the loop of lines 288-299. *)
Definition check_one (e : Env) (row : Z * option Z) (s : State)
    : Outcome unit :=
  let (run_id, pid) := row in
  if gone e pid
  then
    let s1 := update_run_status (now e) run_id Dead
                (mkKwargs None None None None None None (Some (-1)) None) s in
    and_then
      (add_event run_id "error" "Process died unexpectedly" s1)
      (fun _ s2 =>
         let s3 := if dict_mem run_id (running_processes s2)
                   then set_running_processes
                          (dict_del run_id (running_processes s2)) s2
                   else s2 in
         Returns tt
           (if dict_mem run_id (process_info s3)
            then set_process_info (dict_del run_id (process_info s3)) s3
            else s3))
  else Returns tt s.

(** The loop of lines 288-299 over rows fetched before. *)
Definition check_rows (e : Env) (rows : list (Z * option Z)) (s : State)
    : Outcome unit :=
  for_each (check_one e) rows s.

Definition check_heartbeats (e : Env) (s : State) : Outcome unit :=
  check_rows e (stale_runs e s) s.

(** ** [RunnerService.monitor_processes] (lines 303-326) *)

(** The body of the loop. *)
Definition monitor_one (e : Env) (entry : Z * Z) (s : State)
    : Outcome unit :=
  let (run_id, pid) := entry in
  match poll e pid with
  | Some exit_code =>
      let s1 := update_run_status (now e) run_id Stopped
                  (mkKwargs None None None None (Some (now e)) None
                     (Some exit_code) None) s in
      and_then
        (if exit_code =? 0
         then add_event run_id "info" "Strategy completed successfully" s1
         else add_event run_id "error"
                ("Strategy failed with exit code " ++ str exit_code) s1)
        (fun _ s2 => Returns tt (cleanup run_id s2))
  | None => Returns tt s
  end.

Definition monitor_processes (e : Env) (s : State) : Outcome unit :=
  for_each (monitor_one e) (running_processes s) s.

(** ** [RunnerService.run] (lines 328-362) *)

(** Lines 338-339. *)
Definition claim_and_launch (e : Env) (run : Run) (s : State)
    : Outcome unit :=
  and_then (claim_run (now e) (r_id run) s)
    (fun claimed s1 =>
       if claimed
       then and_then (launch_strategy e run s1) (fun _ s2 => Returns tt s2)
       else Returns tt s1).

(** Lines 337-339: the loop over the pending runs fetched before. *)
Definition claim_rows (e : Env) (pending_runs : list Run) (s : State)
    : Outcome unit :=
  for_each (claim_and_launch e) pending_runs s.

(** The [try] block of one iteration, lines 334-345. *)
Definition iteration (e : Env) (s : State) : Outcome unit :=
  and_then (claim_rows e (get_pending_runs e s) s)
    (fun _ s1 =>
       and_then (monitor_processes e s1)
         (fun _ s2 => check_heartbeats e s2)).

(** One iteration with the handler of lines 354-356, which prints the
    exception and goes on to the next iteration. *)
Definition tick (e : Env) (s : State) : State := state_of (iteration e s).

(** The loop of lines 333-356, for the iterations it makes: [envs]
    lists what each iteration finds. *)
Definition run_loop (envs : list Env) (s : State) : State :=
  fold_left (fun acc e => tick e acc) envs s.

(** Lines 358-360: on shutdown every tracked process is stopped.  This
    loop is outside the [try]. *)
Definition shutdown (e : Env) (s : State) : Outcome unit :=
  for_each
    (fun run_id s0 =>
       and_then (stop_strategy e run_id 5 s0) (fun _ s1 => Returns tt s1))
    (map fst (running_processes s)) s.

(** ** The stop endpoint, [routers/runs.py] [stop_run] (lines 99-136) *)
Inductive Response : Type :=
  | Success (message : string)
  | HTTPException (status_code : Z) (detail : string).

Definition stop_run (now_ : Z) (run_id : Z) (grace : Z) (s : State)
    : Response * State :=
  match find (fun r => r_id r =? run_id) (runs (db s)) with
  | None => (HTTPException 404 "Run not found", s)
  | Some r =>
      match r_status r with
      | Running | Starting =>
          let s1 :=
            commit
              (mkStore
                 (sql_update (fun r => r_id r =? run_id)
                    (assign_all [set_status Stopping; set_updated_at now_])
                    (runs (db s)))
                 (run_events (db s)))
              s in
          (Success ("Run " ++ str run_id
                    ++ " marked for stopping (grace period: " ++ str grace
                    ++ "s)"), s1)
      | st =>
          (HTTPException 400
             ("Cannot stop run with status: " ++ status_text st), s)
      end
  end.

(** The two statements of [stop_run] on their own: the [SELECT] of line 107
    with the tests of lines 110-114, and the [UPDATE] of lines 117-122.
    Another process can commit between the two. *)
Definition stop_run_accepts (run_id : Z) (s : State) : bool :=
  match find (fun r => r_id r =? run_id) (runs (db s)) with
  | Some r =>
      match r_status r with
      | Running | Starting => true
      | _ => false
      end
  | None => false
  end.

Definition stop_run_update (now_ : Z) (run_id : Z) (s : State) : State :=
  commit
    (mkStore
       (sql_update (fun r => r_id r =? run_id)
          (assign_all [set_status Stopping; set_updated_at now_])
          (runs (db s)))
       (run_events (db s)))
    s.

(** ** The heartbeat of the child, [strategies/runner.py] [update_heartbeat]
    (lines 26-38) *)
Definition update_heartbeat (now_ : Z) (run_id : Z) (s : State) : State :=
  commit
    (mkStore
       (sql_update (fun r => r_id r =? run_id)
          (assign (set_last_heartbeat now_)) (runs (db s)))
       (run_events (db s)))
    s.

(** * The rest of the endpoints, and the child

    The functions of [routers/runs.py] and [strategies/runner.py] besides
    those above.  [list_runs] and [get_run_events] are left out. *)

(** What an endpoint answers: a body, or an [HTTPException]. *)
Inductive Reply (A : Type) : Type :=
  | Answer (body : A)
  | Refusal (status_code : Z) (detail : string).

Arguments Answer {A} body.
Arguments Refusal {A} status_code detail.

(** ** [create_run] (lines 29-49)

    The body of the request, [RunCreate] (lines 18-22). *)
Record RunCreate : Type := mkRunCreate {
  rc_strategy_id : Z;
  rc_cfg : list (string * string);
  rc_notes : option string;
  rc_requested_by : option string
}.

(** The row the [INSERT] of lines 36-40 adds: the columns it does not name
    take their defaults.  [new_id] is what the sequence of the SERIAL
    column [id] gives, [now_] is [CURRENT_TIMESTAMP]. *)
Definition created_row (now_ new_id : Z) (run : RunCreate) : Run :=
  mkRun new_id (rc_strategy_id run) (rc_requested_by run)
    (Some (rc_cfg run)) Pending None None None None None None
    (rc_notes run) now_ now_.

(** The answer carries the new id and a fixed message. *)
Definition create_run (now_ new_id : Z) (run : RunCreate) (s : State)
    : (Z * string) * State :=
  ((new_id, "Run created successfully"),
   commit
     (mkStore (runs (db s) ++ [created_row now_ new_id run])
        (run_events (db s)))
     s).

(** ** [get_run] (lines 78-97) *)
Definition get_run (run_id : Z) (s : State) : Reply Run :=
  match find (fun r => r_id r =? run_id) (runs (db s)) with
  | Some r => Answer r
  | None => Refusal 404 "Run not found"
  end.

(** ** The log files

    The directory [logs]: each path with the lines of its file. *)
Definition Files : Type := list (string * list string).

(** [open(path).readlines()], [None] when there is no such file. *)
Fixpoint readlines (path : string) (fs : Files) : option (list string) :=
  match fs with
  | [] => None
  | (p, ls) :: fs' =>
      if String.eqb p path then Some ls else readlines path fs'
  end.

(** [os.path.exists]. *)
Definition path_exists (path : string) (fs : Files) : bool :=
  match readlines path fs with
  | Some _ => true
  | None => false
  end.

(** [os.remove]. *)
Definition os_remove (path : string) (fs : Files) : Files :=
  filter (fun f => negb (String.eqb (fst f) path)) fs.

(** Python's [l[start:]] for an integer [start]: a negative [start] counts
    from the end, and what falls outside the list is clipped. *)
Definition slice_from {A : Type} (start : Z) (l : list A) : list A :=
  let n := Z.of_nat (List.length l) in
  let k := if start <? 0 then Z.max 0 (start + n) else Z.min start n in
  skipn (Z.to_nat k) l.

(** ** [get_run_logs] (lines 138-165) *)
Inductive LogsBody : Type :=
  | NoLogFile (message : string)
  | Logs (logs : list string) (total_lines : Z).

Definition get_run_logs (run_id : Z) (tail_ : Z) (s : State) (fs : Files)
    : Reply LogsBody :=
  match find (fun r => r_id r =? run_id) (runs (db s)) with
  | None => Refusal 404 "Run not found"
  | Some _ =>
      match readlines (log_file run_id) fs with
      | None => Answer (NoLogFile "No log file found")
      | Some lines =>
          let total := Z.of_nat (List.length lines) in
          let logs :=
            if total >? tail_ then slice_from (- tail_) lines else lines in
          Answer (Logs logs total)
      end
  end.

(** ** [delete_run] (lines 189-223) *)

(** [DELETE FROM run_events WHERE run_id = %s] and
    [DELETE FROM runs WHERE id = %s], committed together. *)
Definition delete_rows (run_id : Z) (st : Store) : Store :=
  mkStore (filter (fun r => negb (r_id r =? run_id)) (runs st))
    (filter (fun ev => negb (e_run_id ev =? run_id)) (run_events st)).

Definition delete_run (run_id : Z) (s : State) (fs : Files)
    : Reply string * State * Files :=
  match find (fun r => r_id r =? run_id) (runs (db s)) with
  | None => (Refusal 404 "Run not found", s, fs)
  | Some r =>
      match r_status r with
      | Running | Starting | Stopping =>
          (Refusal 400 "Cannot delete running run", s, fs)
      | _ =>
          let s1 := commit (delete_rows run_id (db s)) s in
          let fs1 :=
            if path_exists (log_file run_id) fs
            then os_remove (log_file run_id) fs
            else fs in
          (Answer ("Run " ++ str run_id ++ " deleted successfully")%string,
           s1, fs1)
      end
  end.

(** ** [get_dashboard_stats] (lines 226-262) *)
Definition all_statuses : list Status :=
  [Pending; Starting; Running; Stopping; Stopped; Error; Dead].

(** [COUNT(CASE WHEN ... THEN 1 END)]. *)
Definition count_rows (p : Run -> bool) (rows : list Run) : Z :=
  Z.of_nat (List.length (filter p rows)).

(** The dictionary [status_counts] is given by its lookup: [GROUP BY
    status] has a row for each status that occurs. *)
Record Stats : Type := mkStats {
  status_counts : Status -> option Z;
  total_runs : Z;
  runs_24h : Z;
  currently_running : Z
}.

(** The endpoint runs two statements (lines 234-238 and 243-248); each
    reads what is committed when it starts, so other commits can fall
    between them: [first] and [second] are the stores the two statements
    read.  [now_] is what [NOW()] gives in the second. *)
Definition get_dashboard_stats (now_ : Z) (first second : Store) : Stats :=
  mkStats
    (fun st =>
       let n := count_rows (fun r => status_eqb (r_status r) st)
                  (runs first) in
       if 0 <? n then Some n else None)
    (Z.of_nat (List.length (runs second)))
    (count_rows (fun r => now_ - 86400 <? r_created_at r) (runs second))
    (count_rows (fun r => status_eqb (r_status r) Running) (runs second)).

(** ** The loop of the child, [strategies/runner.py] [main] (lines 61-81)

    One iteration reads [time.time()]; when it sends a heartbeat,
    [update_heartbeat] reads [datetime.now()].  [clock] lists both readings
    for the iterations made before the signal handler sets [stopping]. *)
Fixpoint heartbeat_loop (clock : list (Z * Z)) (last_heartbeat : Z)
    (run_id : Z) (s : State) : Z * State :=
  match clock with
  | [] => (last_heartbeat, s)
  | (current_time, now_) :: rest =>
      if current_time - last_heartbeat >=? 10
      then heartbeat_loop rest current_time run_id
             (update_heartbeat now_ run_id s)
      else heartbeat_loop rest last_heartbeat run_id s
  end.

(** [main]: [start] is the reading of line 62; the loop left, the function
    returns 0. *)
Definition main (start : Z) (clock : list (Z * Z)) (run_id : Z) (s : State)
    : Z * State :=
  (0, snd (heartbeat_loop clock start run_id s)).

(** ** [RunnerService.__init__] (lines 19-24)

    A new service tracks no process. *)
Definition new_service (st : Store) : State := mkState st [] [] [].

(** * The vocabulary of the statements *)

(** How a call treats one nullable column: an argument that is [None]
    leaves it alone, another value is stored, and a value that was there is
    never replaced by NULL. *)
Definition column_kept {A : Type} (supplied before after : option A) : Prop :=
  (supplied = None -> after = before)
  /\ (forall v, supplied = Some v -> after = Some v)
  /\ (before <> None -> after <> None).

(** The row [update_run_status] writes in place of a row it selects. *)
Definition updated_row (now : Z) (status : Status) (kw : Kwargs) (r : Run)
    : Run :=
  match kwargs_fields kw with
  | _ :: _ =>
      assign_all (kwargs_fields kw ++ [set_status status; set_updated_at now]) r
  | [] => assign_all [set_status status; set_updated_at now] r
  end.

(** A row for the examples: a run that was launched with pid 4242 and
    sent its last heartbeat at time 110. *)
Definition sample_run (id : Z) (st : Status) : Run :=
  mkRun id 7 (Some "ops") (Some [("x", "1")]) st (Some 4242) (Some "box")
    (Some 100) None (Some 110) None None 90 100.

(** A state for the examples: no event yet, nothing observed yet. *)
Definition sample_state (rows : list Run) (procs : list (Z * Z)) : State :=
  mkState (mkStore rows []) procs [] [].

(** [id] is the primary key of [runs]. *)
Definition primary_key (rows : list Run) : Prop := NoDup (map r_id rows).

(** The row the [UPDATE] of [claim_run] leaves in place of [r]. *)
Definition claimed_row (now : Z) (r : Run) : Run :=
  mkRun (r_id r) (r_strategy_id r) (r_requested_by r) (r_cfg r) Starting
    (r_pid r) (r_host r) (r_started_at r) (r_stopped_at r)
    (r_last_heartbeat r) (r_exit_code r) (r_notes r) (r_created_at r) now.

(** An environment for the examples, at time 200: every child keeps
    running and answers no termination request, and the database returns
    rows in the order of the table. *)
Definition quiet_env : Env :=
  mkEnv 200 230 "box" (fun _ => Spawned 4242) (fun _ => None) (fun _ => true)
    (fun _ => None) (fun _ _ => None) (fun _ => None) (fun _ => 0).

(** [quiet_env] and the like with one answer replaced. *)
Definition with_poll (e : Env) (f : Z -> option Z) : Env :=
  mkEnv (now e) (later e) (node e) (popen e) f (pid_exists e) (send_term e)
    (wait_term e) (send_kill e) (row_order e).

Definition with_pid_exists (e : Env) (f : Z -> bool) : Env :=
  mkEnv (now e) (later e) (node e) (popen e) (poll e) f (send_term e)
    (wait_term e) (send_kill e) (row_order e).

Definition with_popen (e : Env) (f : Run -> Launch) : Env :=
  mkEnv (now e) (later e) (node e) f (poll e) (pid_exists e) (send_term e)
    (wait_term e) (send_kill e) (row_order e).

Definition with_row_order (e : Env) (f : Run -> Z) : Env :=
  mkEnv (now e) (later e) (node e) (popen e) (poll e) (pid_exists e)
    (send_term e) (wait_term e) (send_kill e) f.

(** The column [pid], row by row. *)
Definition pids (s : State) : list (option Z) := map r_pid (runs (db s)).

(** The row [monitor_processes] leaves in place of [r] when it finds, at
    time [t], that the child has exited with return code [c]. *)
Definition stopped_row (t c : Z) (r : Run) : Run :=
  mkRun (r_id r) (r_strategy_id r) (r_requested_by r) (r_cfg r) Stopped
    (r_pid r) (r_host r) (r_started_at r) (Some t)
    (r_last_heartbeat r) (Some c) (r_notes r) (r_created_at r) t.

(** The events of one run, oldest first. *)
Definition events_of (run_id : Z) (s : State) : list RunEvent :=
  filter (fun ev => e_run_id ev =? run_id) (run_events (db s)).

(** The row [check_heartbeats] leaves in place of a row [r] it declares
    dead. *)
Definition dead_row (now_ : Z) (r : Run) : Run :=
  mkRun (r_id r) (r_strategy_id r) (r_requested_by r) (r_cfg r) Dead
    (r_pid r) (r_host r) (r_started_at r) (r_stopped_at r)
    (r_last_heartbeat r) (Some (-1)) (r_notes r) (r_created_at r) now_.

(** The row a successful launch leaves in place of [r]. *)
Definition launched_row (now_ pid : Z) (host : string) (r : Run) : Run :=
  mkRun (r_id r) (r_strategy_id r) (r_requested_by r) (r_cfg r) Running
    (Some pid) (Some host) (Some now_) (r_stopped_at r)
    (r_last_heartbeat r) (r_exit_code r) (r_notes r) (r_created_at r) now_.

(** The row the stop endpoint, and the first statement of
    [stop_strategy], leave in place of [r]. *)
Definition stopping_row (now_ : Z) (r : Run) : Run :=
  mkRun (r_id r) (r_strategy_id r) (r_requested_by r) (r_cfg r) Stopping
    (r_pid r) (r_host r) (r_started_at r) (r_stopped_at r)
    (r_last_heartbeat r) (r_exit_code r) (r_notes r) (r_created_at r) now_.

(** The row a heartbeat of the child leaves in place of [r]. *)
Definition heartbeat_row (now_ : Z) (r : Run) : Run :=
  mkRun (r_id r) (r_strategy_id r) (r_requested_by r) (r_cfg r) (r_status r)
    (r_pid r) (r_host r) (r_started_at r) (r_stopped_at r)
    (Some now_) (r_exit_code r) (r_notes r) (r_created_at r) (r_updated_at r).

(** The statuses of the rows with a given id. *)
Definition statuses (run_id : Z) (s : State) : list Status :=
  map r_status (filter (fun r => r_id r =? run_id) (runs (db s))).

(** [status_counts.get(st, 0)]. *)
Definition count_of (st : Status) (stats : Stats) : Z :=
  match status_counts stats st with
  | Some n => n
  | None => 0
  end.

(** The sum of the counts of a [status_counts] dictionary. *)
Definition sum_counts (stats : Stats) : Z :=
  fold_right (fun st acc => count_of st stats + acc) 0 all_statuses.

(** The exception every call of [add_event] raises. *)
Definition insert_rejected : Exception :=
  ExecuteError "INSERT INTO run_events".

(** The first tracked process, in the order of the dictionary, that
    [poll] reports as exited, with its return code. *)
Fixpoint first_exited (e : Env) (procs : list (Z * Z)) : option (Z * Z) :=
  match procs with
  | [] => None
  | (run_id, pid) :: rest =>
      match poll e pid with
      | Some exit_code => Some (run_id, exit_code)
      | None => first_exited e rest
      end
  end.

(** The first of the fetched rows whose process is gone. *)
Definition first_gone (e : Env) (rows : list (Z * option Z))
    : option (Z * option Z) :=
  find (fun row => gone e (snd row)) rows.

(** The test of line 142 of [claim_run], [cursor.rowcount > 0], on the
    store as it is: some row has the id and is [pending]. *)
Definition claimable (run_id : Z) (s : State) : bool :=
  existsb (fun r => (r_id r =? run_id) && status_eqb (r_status r) Pending)
    (runs (db s)).

(** The arguments of the three calls of [update_run_status] that write a
    final status. *)
Definition exited_kwargs (t exit_code : Z) : Kwargs :=
  mkKwargs None None None None (Some t) None (Some exit_code) None.

Definition dead_kwargs : Kwargs :=
  mkKwargs None None None None None None (Some (-1)) None.

Definition launched_kwargs (e : Env) (pid : Z) : Kwargs :=
  mkKwargs None (Some pid) (Some (node e)) (Some (now e)) None None None None.

(** The service once [launch_strategy] has recorded the child, lines
    188-204. *)
Definition launched (e : Env) (run : Run) (pid : Z) (s : State) : State :=
  let s1 := set_running_processes
              (dict_set (r_id run) pid (running_processes s)) s in
  let s2 := set_process_info
              (dict_set (r_id run)
                 (mkInfo pid (now e) (log_file (r_id run)))
                 (process_info s1)) s1 in
  update_run_status (now e) (r_id run) Running (launched_kwargs e pid) s2.

(** A row the heartbeat check takes for dead: it is [running], its
    heartbeat is older than the threshold or was never set, and the test
    of line 289 finds its process gone. *)
Definition doomed (e : Env) (r : Run) : bool :=
  stale (now e - 30) r && gone e (r_pid r).

(** The transitions listed in section 4.1 of the specification. *)
Definition spec_edge (a b : Status) : bool :=
  match a, b with
  | Pending, Starting
  | Starting, Running | Starting, Error
  | Running, Stopping | Running, Stopped | Running, Error | Running, Dead
  | Stopping, Stopped | Stopping, Dead => true
  | _, _ => false
  end.

(** The same with the two transitions the stop endpoint takes besides: it
    accepts a run that is [starting], and its [UPDATE] can follow the
    commit by which the heartbeat check declares the run [dead]. *)
Definition edge (a b : Status) : bool :=
  spec_edge a b
  || match a, b with
     | Starting, Stopping | Dead, Stopping => true
     | _, _ => false
     end.

(** * The system: one store, several actors

    The runner service, the clients of the endpoints and the children
    share the store and nothing else.  Each of them runs its statements
    one after the other; statements of different actors interleave
    freely.  A step of the system is one statement of one actor, with what
    the actor does on its own around it. *)
Record System : Type := mkSystem {
  (** The runner service, with the store. *)
  service : State;
  (** The ids for which a stop request has passed the test of lines
      110-114 of [stop_run] and has yet to run its [UPDATE]. *)
  accepted : list Z;
  (** The rows a [check_heartbeats] has fetched at line 287. *)
  fetched : list (Z * option Z);
  (** The next value of the sequence behind the SERIAL column [runs.id]. *)
  next_id : Z
}.

Definition with_service (s : State) (w : System) : System :=
  mkSystem s (accepted w) (fetched w) (next_id w).

Inductive step (w : System) : System -> Prop :=
  (** The loop of [run], line 338: a call of [claim_run]. *)
  | step_claim (now_ run_id : Z) :
      step w (with_service (state_of (claim_run now_ run_id (service w))) w)
  (** [monitor_processes]: one turn of its loop, for a tracked process. *)
  | step_monitor (e : Env) (entry : Z * Z) :
      In entry (running_processes (service w)) ->
      step w (with_service (state_of (monitor_one e entry (service w))) w)
  (** [check_heartbeats], lines 281-287: the [SELECT]. *)
  | step_select_stale (e : Env) :
      step w
        (mkSystem (service w) (accepted w)
           (stale_runs e (service w) ++ fetched w) (next_id w))
  (** [check_heartbeats]: one turn of its loop, for a fetched row. *)
  | step_check (e : Env) (row : Z * option Z) :
      In row (fetched w) ->
      step w (with_service (state_of (check_one e row (service w))) w)
  (** The shutdown of [run], line 360: a call of [stop_strategy]. *)
  | step_stop_strategy (e : Env) (run_id grace_period : Z) :
      step w
        (with_service
           (state_of (stop_strategy e run_id grace_period (service w))) w)
  (** [stop_run], lines 107-114: the [SELECT] and the tests. *)
  | step_stop_select (run_id : Z) :
      stop_run_accepts run_id (service w) = true ->
      step w
        (mkSystem (service w) (run_id :: accepted w) (fetched w) (next_id w))
  (** [stop_run], lines 117-122: the [UPDATE]. *)
  | step_stop_update (now_ run_id : Z) :
      In run_id (accepted w) ->
      step w (with_service (stop_run_update now_ run_id (service w)) w)
  (** A child: [update_heartbeat]. *)
  | step_heartbeat (now_ run_id : Z) :
      step w (with_service (update_heartbeat now_ run_id (service w)) w)
  (** [create_run]: the [INSERT], with the next id of the sequence. *)
  | step_create (now_ : Z) (run : RunCreate) :
      step w
        (mkSystem (snd (create_run now_ (next_id w) run (service w)))
           (accepted w) (fetched w) (next_id w + 1))
  (** [delete_run], lines 207-210: the two [DELETE]s and their commit.
      The test of line 203 was made on the store of an earlier moment. *)
  | step_delete (run_id : Z) :
      step w
        (with_service (commit (delete_rows run_id (db (service w)))
                         (service w)) w).

(** Any number of steps. *)
Inductive steps (w : System) : System -> Prop :=
  | steps_none : steps w w
  | steps_more (w1 w2 : System) : steps w w1 -> step w1 w2 -> steps w w2.

(** The system when the service starts: the constructor has run, no
    request is under way, and the sequence is ahead of every id. *)
Definition initial (w : System) : Prop :=
  service w = new_service (db (service w))
  /\ accepted w = []
  /\ fetched w = []
  /\ primary_key (runs (db (service w)))
  /\ (forall r, In r (runs (db (service w))) -> r_id r < next_id w).

(** What a step does to the table [runs]: a row of the new table is a row
    of the old one with its status kept or moved along [E], or it is a new
    row, with a new id, and [pending]. *)
Definition transition (E : Status -> Status -> bool) (st st' : Store)
    : Prop :=
  forall r', In r' (runs st') ->
    (exists r, In r (runs st)
               /\ r_id r = r_id r'
               /\ (r_status r' = r_status r
                   \/ E (r_status r) (r_status r') = true))
    \/ ((forall r, In r (runs st) -> r_id r <> r_id r')
        /\ r_status r' = Pending).

(** The rows with the id have one of the listed statuses. *)
Definition status_among (l : list Status) (run_id : Z) (s : State) : Prop :=
  forall r, In r (runs (db s)) -> r_id r = run_id -> In (r_status r) l.

(** What holds of the system all along. *)
Definition invariant (w : System) : Prop :=
  primary_key (runs (db (service w)))
  /\ running_processes (service w) = []
  /\ (forall r, In r (runs (db (service w))) -> r_id r < next_id w)
  /\ (forall run_id, In run_id (accepted w) ->
        run_id < next_id w
        /\ status_among [Starting; Running; Stopping; Dead] run_id (service w))
  /\ (forall row, In row (fetched w) ->
        fst row < next_id w
        /\ status_among [Running; Stopping; Dead] (fst row) (service w)).

(** * Properties *)

(** ** Rows and statements *)

Lemma status_eqb_eq (a b : Status) : status_eqb a b = true <-> a = b.
Proof. destruct a, b; simpl; split; intro H; congruence. Qed.

Lemma sql_update_nth (w : Run -> bool) (f : Run -> Run) (rows : list Run)
    (i : nat) :
  nth_error (sql_update w f rows) i
  = option_map (fun r => if w r then f r else r) (nth_error rows i).
Proof. unfold sql_update. apply nth_error_map. Qed.

Lemma sql_update_In (w : Run -> bool) (f : Run -> Run) (rows : list Run)
    (r' : Run) :
  In r' (sql_update w f rows)
  <-> exists r, In r rows /\ r' = (if w r then f r else r).
Proof.
  unfold sql_update. rewrite in_map_iff. split.
  - intros (r & H1 & H2). exists r. split; [assumption|now symmetry].
  - intros (r & H1 & H2). exists r. split; [now symmetry|assumption].
Qed.

Lemma sql_update_ids (w : Run -> bool) (f : Run -> Run) (rows : list Run) :
  (forall r, r_id (f r) = r_id r) ->
  map r_id (sql_update w f rows) = map r_id rows.
Proof.
  intros Hf. unfold sql_update. rewrite map_map. apply map_ext.
  intros r. destruct (w r); [apply Hf|reflexivity].
Qed.

Lemma column_kept_intro {A : Type} (supplied before : option A) :
  column_kept supplied before
    (match supplied with Some v => Some v | None => before end).
Proof.
  unfold column_kept. destruct supplied; repeat split; congruence.
Qed.

Lemma updated_row_columns (now : Z) (status : Status) (kw : Kwargs) (r : Run) :
  updated_row now status kw r
  = mkRun (r_id r) (r_strategy_id r)
      (match kw_requested_by kw with Some v => Some v | None => r_requested_by r end)
      (r_cfg r) status
      (match kw_pid kw with Some v => Some v | None => r_pid r end)
      (match kw_host kw with Some v => Some v | None => r_host r end)
      (match kw_started_at kw with Some v => Some v | None => r_started_at r end)
      (match kw_stopped_at kw with Some v => Some v | None => r_stopped_at r end)
      (match kw_last_heartbeat kw with Some v => Some v | None => r_last_heartbeat r end)
      (match kw_exit_code kw with Some v => Some v | None => r_exit_code r end)
      (match kw_notes kw with Some v => Some v | None => r_notes r end)
      (r_created_at r) now.
Proof.
  destruct kw as [[a|] [b|] [c|] [d|] [e|] [f|] [g|] [h|]]; reflexivity.
Qed.

Lemma updated_row_id (now_ : Z) (status : Status) (kw : Kwargs) (r : Run) :
  r_id (updated_row now_ status kw r) = r_id r.
Proof. now rewrite updated_row_columns. Qed.

Lemma updated_row_status (now_ : Z) (status : Status) (kw : Kwargs) (r : Run) :
  r_status (updated_row now_ status kw r) = status.
Proof. now rewrite updated_row_columns. Qed.

Lemma updated_row_pid (now_ : Z) (status : Status) (kw : Kwargs) (r : Run) :
  kw_pid kw = None -> r_pid (updated_row now_ status kw r) = r_pid r.
Proof. intros H. rewrite updated_row_columns. cbn [r_pid]. now rewrite H. Qed.

Lemma update_run_status_db (now run_id : Z) (status : Status) (kw : Kwargs)
    (s : State) :
  db (update_run_status now run_id status kw s)
  = mkStore
      (sql_update (fun r => r_id r =? run_id) (updated_row now status kw)
         (runs (db s)))
      (run_events (db s)).
Proof.
  unfold update_run_status, updated_row.
  destruct (kwargs_fields kw); reflexivity.
Qed.

Lemma update_run_status_observed (now run_id : Z) (status : Status)
    (kw : Kwargs) (s : State) :
  observed (update_run_status now run_id status kw s)
  = db (update_run_status now run_id status kw s) :: observed s.
Proof. unfold update_run_status. destruct (kwargs_fields kw); reflexivity. Qed.

Lemma update_run_status_running_processes (now run_id : Z) (status : Status)
    (kw : Kwargs) (s : State) :
  running_processes (update_run_status now run_id status kw s)
  = running_processes s.
Proof. reflexivity. Qed.

Lemma update_run_status_process_info (now run_id : Z) (status : Status)
    (kw : Kwargs) (s : State) :
  process_info (update_run_status now run_id status kw s) = process_info s.
Proof. reflexivity. Qed.

Lemma update_run_status_nth (now run_id : Z) (status : Status) (kw : Kwargs)
    (s : State) (i : nat) :
  nth_error (runs (db (update_run_status now run_id status kw s))) i
  = option_map
      (fun r => if r_id r =? run_id then updated_row now status kw r else r)
      (nth_error (runs (db s)) i).
Proof. rewrite update_run_status_db. cbn [runs]. apply sql_update_nth. Qed.

Lemma update_run_status_events (now run_id : Z) (status : Status)
    (kw : Kwargs) (s : State) :
  run_events (db (update_run_status now run_id status kw s))
  = run_events (db s).
Proof. now rewrite update_run_status_db. Qed.

Lemma rowcount_pos (w : Run -> bool) (rows : list Run) :
  (0 <? rowcount w rows)%nat = existsb w rows.
Proof.
  unfold rowcount. induction rows as [|r rows IH]; simpl; [reflexivity|].
  destruct (w r); simpl; [reflexivity|exact IH].
Qed.

Lemma primary_key_unique (rows : list Run) (a b : Run) :
  primary_key rows -> In a rows -> In b rows -> r_id a = r_id b -> a = b.
Proof.
  unfold primary_key. induction rows as [|r rows IH]; simpl; [tauto|].
  intros Hnd Ha Hb Hid. inversion Hnd as [|x l Hnotin Hnd']; subst.
  destruct Ha as [Ha|Ha], Hb as [Hb|Hb]; subst.
  - reflexivity.
  - exfalso. apply Hnotin. rewrite Hid. now apply in_map.
  - exfalso. apply Hnotin. rewrite <- Hid. now apply in_map.
  - now apply IH.
Qed.

Lemma place_In (rank : Run -> Z) (r x : Run) (rows : list Run) :
  In x (place rank r rows) <-> x = r \/ In x rows.
Proof.
  induction rows as [|r' rows IH]; simpl.
  - intuition congruence.
  - destruct (rank r <=? rank r'); simpl; [intuition congruence|].
    rewrite IH. intuition congruence.
Qed.

Lemma fetchall_In (e : Env) (x : Run) (rows : list Run) :
  In x (fetchall e rows) <-> In x rows.
Proof.
  unfold fetchall. induction rows as [|r rows IH]; simpl; [tauto|].
  rewrite place_In, IH. intuition congruence.
Qed.

(** ** What the calls come to

    Every call of [add_event] raises, so each function that logs ends at
    its first call of [add_event], or in the handler's. *)

Lemma claim_run_eq (now_ run_id : Z) (s : State) :
  claim_run now_ run_id s
  = if claimable run_id s
    then Raises insert_rejected (claim_update now_ run_id s)
    else Returns false s.
Proof.
  unfold claim_run, claimable. rewrite rowcount_pos.
  destruct (existsb _ _); reflexivity.
Qed.

Lemma launch_strategy_eq (e : Env) (run : Run) (s : State) :
  launch_strategy e run s
  = match popen e run with
    | Spawned pid => Raises insert_rejected (launched e run pid s)
    | Raised _ => Raises insert_rejected s
    end.
Proof.
  unfold launch_strategy, launch_body. destruct (popen e run); reflexivity.
Qed.

Lemma stop_strategy_eq (e : Env) (run_id grace_period : Z) (s : State) :
  stop_strategy e run_id grace_period s
  = match dict_get run_id (running_processes s) with
    | Some _ =>
        Raises insert_rejected
          (update_run_status (now e) run_id Stopping no_kwargs s)
    | None => Returns false s
    end.
Proof.
  unfold stop_strategy. destruct (dict_get _ _); reflexivity.
Qed.

Lemma monitor_one_eq (e : Env) (run_id pid : Z) (s : State) :
  monitor_one e (run_id, pid) s
  = match poll e pid with
    | Some exit_code =>
        Raises insert_rejected
          (update_run_status (now e) run_id Stopped
             (exited_kwargs (now e) exit_code) s)
    | None => Returns tt s
    end.
Proof.
  unfold monitor_one. destruct (poll e pid) as [c|]; [|reflexivity].
  destruct (c =? 0); reflexivity.
Qed.

Lemma check_one_eq (e : Env) (run_id : Z) (pid : option Z) (s : State) :
  check_one e (run_id, pid) s
  = if gone e pid
    then Raises insert_rejected
           (update_run_status (now e) run_id Dead dead_kwargs s)
    else Returns tt s.
Proof. unfold check_one. destruct (gone e pid); reflexivity. Qed.

Lemma monitor_processes_eq (e : Env) (s : State) :
  monitor_processes e s
  = match first_exited e (running_processes s) with
    | Some (run_id, exit_code) =>
        Raises insert_rejected
          (update_run_status (now e) run_id Stopped
             (exited_kwargs (now e) exit_code) s)
    | None => Returns tt s
    end.
Proof.
  unfold monitor_processes. generalize (running_processes s) as l.
  induction l as [|[run_id pid] l IH]; [reflexivity|].
  cbn [for_each first_exited]. rewrite monitor_one_eq.
  destruct (poll e pid); [reflexivity|exact IH].
Qed.

Lemma check_rows_eq (e : Env) (rows : list (Z * option Z)) (s : State) :
  check_rows e rows s
  = match first_gone e rows with
    | Some (run_id, _) =>
        Raises insert_rejected
          (update_run_status (now e) run_id Dead dead_kwargs s)
    | None => Returns tt s
    end.
Proof.
  unfold check_rows, first_gone.
  induction rows as [|[run_id pid] rows IH]; [reflexivity|].
  cbn [for_each find snd]. rewrite check_one_eq.
  destruct (gone e pid); [reflexivity|exact IH].
Qed.

Lemma claim_and_launch_eq (e : Env) (run : Run) (s : State) :
  claim_and_launch e run s
  = if claimable (r_id run) s
    then Raises insert_rejected (claim_update (now e) (r_id run) s)
    else Returns tt s.
Proof.
  unfold claim_and_launch. rewrite claim_run_eq.
  destruct (claimable _ _); reflexivity.
Qed.

Lemma claim_rows_eq (e : Env) (l : list Run) (s : State) :
  claim_rows e l s
  = match find (fun run => claimable (r_id run) s) l with
    | Some run =>
        Raises insert_rejected (claim_update (now e) (r_id run) s)
    | None => Returns tt s
    end.
Proof.
  unfold claim_rows. induction l as [|run l IH]; [reflexivity|].
  cbn [for_each find]. rewrite claim_and_launch_eq.
  destruct (claimable _ _); [reflexivity|exact IH].
Qed.

(** ** C10: what [update_run_status] writes *)

(** C10.  A call of [update_run_status] writes [status] and [updated_at]
    into every row with the given id, whatever other arguments it gets;
    each optional argument that is [None] leaves its column unchanged, so no
    column that held a value is reset to NULL; the columns that are not
    arguments, the other rows and the events are untouched. *)
Theorem update_run_status_none_dropped
    (now run_id : Z) (status : Status) (kw : Kwargs) (s : State)
    (i : nat) (r : Run)
    (Hrow : nth_error (runs (db s)) i = Some r) :
  let s' := update_run_status now run_id status kw s in
  run_events (db s') = run_events (db s)
  /\ exists r',
      nth_error (runs (db s')) i = Some r'
      /\ (r_id r <> run_id -> r' = r)
      /\ (r_id r = run_id ->
          r_status r' = status
          /\ r_updated_at r' = now
          /\ column_kept (kw_requested_by kw) (r_requested_by r) (r_requested_by r')
          /\ column_kept (kw_pid kw) (r_pid r) (r_pid r')
          /\ column_kept (kw_host kw) (r_host r) (r_host r')
          /\ column_kept (kw_started_at kw) (r_started_at r) (r_started_at r')
          /\ column_kept (kw_stopped_at kw) (r_stopped_at r) (r_stopped_at r')
          /\ column_kept (kw_last_heartbeat kw) (r_last_heartbeat r)
               (r_last_heartbeat r')
          /\ column_kept (kw_exit_code kw) (r_exit_code r) (r_exit_code r')
          /\ column_kept (kw_notes kw) (r_notes r) (r_notes r')
          /\ r_id r' = r_id r
          /\ r_strategy_id r' = r_strategy_id r
          /\ r_cfg r' = r_cfg r
          /\ r_created_at r' = r_created_at r).
Proof.
  intros s'. subst s'. rewrite update_run_status_db. simpl.
  split; [reflexivity|].
  rewrite sql_update_nth, Hrow. simpl.
  destruct (Z.eqb_spec (r_id r) run_id) as [Heq|Hne].
  - eexists. split; [reflexivity|]. split; [intros H; contradiction|].
    intros _. rewrite updated_row_columns. simpl.
    repeat (split; [first [reflexivity | apply column_kept_intro]|]).
    reflexivity.
  - exists r. split; [reflexivity|]. split; [reflexivity|].
    intros H; contradiction.
Qed.

Lemma update_run_status_none_dropped_witness :
  let s := sample_state [sample_run 1 Running] [(1, 4242)] in
  let s' := update_run_status 200 1 Stopped
              (mkKwargs None None None None (Some 200) None (Some 0) None) s in
  run_events (db s') = run_events (db s)
  /\ exists r',
      nth_error (runs (db s')) 0 = Some r'
      /\ (r_id (sample_run 1 Running) <> 1 -> r' = sample_run 1 Running)
      /\ (r_id (sample_run 1 Running) = 1 ->
          r_status r' = Stopped
          /\ r_updated_at r' = 200
          /\ column_kept None (Some "ops") (r_requested_by r')
          /\ column_kept None (Some 4242) (r_pid r')
          /\ column_kept None (Some "box") (r_host r')
          /\ column_kept None (Some 100) (r_started_at r')
          /\ column_kept (Some 200) None (r_stopped_at r')
          /\ column_kept None (Some 110) (r_last_heartbeat r')
          /\ column_kept (Some 0) None (r_exit_code r')
          /\ column_kept None None (r_notes r')
          /\ r_id r' = 1
          /\ r_strategy_id r' = 7
          /\ r_cfg r' = Some [("x", "1")]
          /\ r_created_at r' = 90).
Proof.
  exact (update_run_status_none_dropped 200 1 Stopped
           (mkKwargs None None None None (Some 200) None (Some 0) None)
           (sample_state [sample_run 1 Running] [(1, 4242)]) 0
           (sample_run 1 Running) eq_refl).
Defined.

(** ** The rows the statements write *)

Lemma updated_row_dead (t : Z) (r : Run) :
  updated_row t Dead dead_kwargs r = dead_row t r.
Proof. now rewrite updated_row_columns. Qed.

Lemma updated_row_stopped (t c : Z) (r : Run) :
  updated_row t Stopped (exited_kwargs t c) r = stopped_row t c r.
Proof. now rewrite updated_row_columns. Qed.

Lemma updated_row_stopping (t : Z) (r : Run) :
  updated_row t Stopping no_kwargs r = stopping_row t r.
Proof. now rewrite updated_row_columns. Qed.

Lemma updated_row_launched (e : Env) (pid : Z) (r : Run) :
  updated_row (now e) Running (launched_kwargs e pid) r
  = launched_row (now e) pid (node e) r.
Proof. now rewrite updated_row_columns. Qed.

Lemma claim_update_nth (now_ run_id : Z) (s : State) (i : nat) :
  nth_error (runs (db (claim_update now_ run_id s))) i
  = option_map
      (fun r => if (r_id r =? run_id) && status_eqb (r_status r) Pending
                then claimed_row now_ r else r)
      (nth_error (runs (db s)) i).
Proof.
  unfold claim_update. cbn [db commit runs]. rewrite sql_update_nth.
  destruct (nth_error (runs (db s)) i) as [r|]; reflexivity.
Qed.

Lemma claimable_true (run_id : Z) (s : State) :
  claimable run_id s = true
  <-> exists r, In r (runs (db s)) /\ r_id r = run_id /\ r_status r = Pending.
Proof.
  unfold claimable. rewrite existsb_exists. split.
  - intros (r & Hin & H). apply andb_true_iff in H as [H1 H2].
    exists r. split; [assumption|]. split; [now apply Z.eqb_eq|].
    now apply status_eqb_eq.
  - intros (r & Hin & H1 & H2). exists r. split; [assumption|].
    apply andb_true_iff. split; [now apply Z.eqb_eq|now apply status_eqb_eq].
Qed.

Lemma claimable_false (run_id : Z) (s : State) (r : Run) :
  primary_key (runs (db s)) -> In r (runs (db s)) -> r_id r = run_id ->
  r_status r <> Pending -> claimable run_id s = false.
Proof.
  intros Hkey Hin Hid Hst.
  destruct (claimable run_id s) eqn:E; [|reflexivity].
  apply claimable_true in E as (r2 & Hin2 & Hid2 & Hst2).
  assert (r2 = r) by (eapply primary_key_unique; eauto; congruence).
  subst r2. contradiction.
Qed.

(** ** C5: the claim

    The [UPDATE] of [claim_run] is guarded on the status, as the claim
    says; but the call never answers [True]. *)

(** C5.  [claim_run] on a run that is [pending] writes [starting] (and
    [updated_at]) into its row and nothing else, commits, and then raises
    from [add_event]: it does not return [True].  On a run in any other
    status it returns [False] and changes nothing.  Whatever the store is,
    [claim_run] never returns [True]. *)
Theorem claim_run_commits_then_raises
    (now_ run_id : Z) (s : State) (i : nat) (r : Run)
    (Hkey : primary_key (runs (db s)))
    (Hrow : nth_error (runs (db s)) i = Some r)
    (Hid : r_id r = run_id) :
  let s' := claim_update now_ run_id s in
  (r_status r = Pending ->
     claim_run now_ run_id s = Raises insert_rejected s'
     /\ nth_error (runs (db s')) i = Some (claimed_row now_ r)
     /\ (forall j r2, nth_error (runs (db s)) j = Some r2 ->
           r_id r2 <> run_id -> nth_error (runs (db s')) j = Some r2)
     /\ run_events (db s') = run_events (db s)
     /\ observed s' = db s' :: observed s)
  /\ (r_status r <> Pending -> claim_run now_ run_id s = Returns false s)
  /\ (forall s1, claim_run now_ run_id s <> Returns true s1).
Proof.
  intros s'. subst s'.
  assert (Hin : In r (runs (db s))) by (eapply nth_error_In; eassumption).
  split; [|split].
  - intros Hst.
    assert (Hc : claimable run_id s = true).
    { apply claimable_true. now exists r. }
    rewrite claim_run_eq, Hc. split; [reflexivity|].
    split; [|split; [|split; reflexivity]].
    + rewrite claim_update_nth, Hrow. cbn [option_map].
      replace (r_id r =? run_id) with true by (symmetry; now apply Z.eqb_eq).
      rewrite Hst. reflexivity.
    + intros j r2 Hj Hne. rewrite claim_update_nth, Hj. cbn [option_map].
      replace (r_id r2 =? run_id) with false
        by (symmetry; now apply Z.eqb_neq).
      reflexivity.
  - intros Hst. rewrite claim_run_eq.
    now rewrite (claimable_false run_id s r Hkey Hin Hid Hst).
  - intros s1. rewrite claim_run_eq.
    destruct (claimable run_id s); discriminate.
Qed.

Lemma claim_run_commits_then_raises_witness :
  let s := sample_state [sample_run 1 Pending; sample_run 2 Running] [] in
  claim_run 200 1 s = Raises insert_rejected (claim_update 200 1 s)
  /\ map r_status (runs (db (claim_update 200 1 s))) = [Starting; Running].
Proof.
  split; [|reflexivity].
  refine (proj1
            (proj1
               (claim_run_commits_then_raises 200 1
                  (sample_state [sample_run 1 Pending; sample_run 2 Running] [])
                  0 (sample_run 1 Pending) _ eq_refl eq_refl) eq_refl)).
  unfold primary_key. simpl.
  repeat constructor; simpl; intuition discriminate.
Defined.


(** ** C4: a stop request on a run that has ended *)

(** C4, as stated, fails: the endpoint answers a stop request on a stopped
    run with the error 400, not with a success. *)
Lemma stop_run_stopped_is_rejected :
  let s := sample_state [sample_run 1 Stopped] [] in
  stop_run 200 1 20 s
  = (HTTPException 400 "Cannot stop run with status: stopped", s)
  /\ (forall note, fst (stop_run 200 1 20 s) <> Success note).
Proof.
  split; [reflexivity|]. intros note. simpl. discriminate.
Qed.

(** C4, amended.  A stop request on a run whose status is terminal is
    refused with the error 400 naming the status, and changes nothing (no
    column of any row, no event).  The request is refused with 404 exactly
    when no row has the id, and it succeeds exactly when the run is
    [running] or [starting]. *)
Theorem stop_run_terminal_rejected (now_ run_id grace : Z) (s : State) :
  (forall r,
      find (fun x => r_id x =? run_id) (runs (db s)) = Some r ->
      terminal (r_status r) = true ->
      stop_run now_ run_id grace s
      = (HTTPException 400
           ("Cannot stop run with status: " ++ status_text (r_status r)), s))
  /\ (find (fun x => r_id x =? run_id) (runs (db s)) = None
      <-> fst (stop_run now_ run_id grace s)
          = HTTPException 404 "Run not found")
  /\ (forall r,
      find (fun x => r_id x =? run_id) (runs (db s)) = Some r ->
      ((exists message, fst (stop_run now_ run_id grace s) = Success message)
       <-> r_status r = Running \/ r_status r = Starting)).
Proof.
  unfold stop_run.
  destruct (find (fun x => r_id x =? run_id) (runs (db s))) as [r0|] eqn:F.
  - split; [|split].
    + intros r [= <-] Ht. destruct (r_status r0); simpl in Ht;
        try discriminate; reflexivity.
    + split; [discriminate|].
      destruct (r_status r0); simpl; discriminate.
    + intros r [= <-]. destruct (r_status r0); simpl; split;
        try (intros [m Hm]; discriminate);
        try (intros [H|H]; discriminate);
        try (intros _; eexists; reflexivity);
        try (intros _; tauto).
  - split; [|split].
    + intros r H; discriminate.
    + split; reflexivity.
    + intros r H; discriminate.
Qed.

Lemma stop_run_terminal_rejected_witness :
  let s := sample_state [sample_run 1 Pending; sample_run 2 Dead] [] in
  stop_run 200 2 20 s
  = (HTTPException 400 "Cannot stop run with status: dead", s).
Proof.
  exact (proj1 (stop_run_terminal_rejected 200 2 20
                  (sample_state [sample_run 1 Pending; sample_run 2 Dead] []))
           (sample_run 2 Dead) eq_refl eq_refl).
Defined.

(** ** C7: a launch that fails *)

(** C7.  When starting the child raises, the handler of [launch_strategy]
    raises in turn, from its [add_event] (line 210), before it writes the
    status: the call does not return, and it leaves the store and the
    service as they were.  A run that was [starting] is still [starting],
    it has no [exit_code] written and no event. *)
Theorem launch_failure_leaves_starting
    (e : Env) (run : Run) (msg : string) (s : State)
    (Hraise : popen e run = Raised msg) :
  launch_strategy e run s = Raises insert_rejected s
  /\ statuses (r_id run) (state_of (launch_strategy e run s))
     = statuses (r_id run) s
  /\ map r_exit_code (runs (db (state_of (launch_strategy e run s))))
     = map r_exit_code (runs (db s))
  /\ run_events (db (state_of (launch_strategy e run s))) = run_events (db s)
  /\ observed (state_of (launch_strategy e run s)) = observed s.
Proof.
  rewrite launch_strategy_eq, Hraise. repeat split.
Qed.

Lemma launch_failure_leaves_starting_witness :
  let e := with_popen quiet_env (fun _ => Raised "no such file") in
  let s := sample_state [sample_run 1 Starting] [] in
  launch_strategy e (sample_run 1 Starting) s = Raises insert_rejected s
  /\ statuses 1 (state_of (launch_strategy e (sample_run 1 Starting) s))
     = [Starting].
Proof.
  pose proof (launch_failure_leaves_starting
                (with_popen quiet_env (fun _ => Raised "no such file"))
                (sample_run 1 Starting) "no such file"
                (sample_state [sample_run 1 Starting] []) eq_refl)
    as (H1 & H2 & _).
  split; [exact H1|exact H2].
Defined.

(** ** C6: stopping a strategy *)

(** C6.  [stop_strategy] on a tracked run writes [stopping] into the row
    of the run, and raises from the [add_event] of line 223, and again
    from the handler's of line 270: it does not return.  Nothing else has
    happened by then: the row has no [stopped_at] or [exit_code] written,
    no event is recorded, the process is still tracked, and the outcome is
    the same whatever the process would answer to a signal or a wait,
    because none is sent and none is made.  On a run that is not tracked
    it returns [False] and changes nothing. *)
Theorem stop_strategy_sends_no_signal
    (e : Env) (run_id grace_period : Z) (s : State) :
  (forall pid, dict_get run_id (running_processes s) = Some pid ->
     let s' := update_run_status (now e) run_id Stopping no_kwargs s in
     stop_strategy e run_id grace_period s = Raises insert_rejected s'
     /\ (forall i r, nth_error (runs (db s)) i = Some r ->
           nth_error (runs (db s')) i
           = Some (if r_id r =? run_id then stopping_row (now e) r else r))
     /\ run_events (db s') = run_events (db s)
     /\ running_processes s' = running_processes s
     /\ process_info s' = process_info s
     /\ (forall e', now e' = now e ->
           stop_strategy e' run_id grace_period s
           = stop_strategy e run_id grace_period s))
  /\ (dict_get run_id (running_processes s) = None ->
      stop_strategy e run_id grace_period s = Returns false s).
Proof.
  split.
  - intros pid Hpid s'. subst s'. rewrite !stop_strategy_eq, Hpid.
    split; [reflexivity|]. split.
    { intros i r Hrow. rewrite update_run_status_nth, Hrow. cbn [option_map].
      now rewrite updated_row_stopping. }
    split; [apply update_run_status_events|].
    split; [reflexivity|]. split; [reflexivity|].
    intros e' He'. now rewrite stop_strategy_eq, Hpid, He'.
  - intros Hnone. now rewrite stop_strategy_eq, Hnone.
Qed.

Lemma stop_strategy_sends_no_signal_witness :
  let s := sample_state [sample_run 1 Running] [(1, 4242)] in
  stop_strategy quiet_env 1 20 s
  = Raises insert_rejected
      (update_run_status 200 1 Stopping no_kwargs s)
  /\ statuses 1 (state_of (stop_strategy quiet_env 1 20 s)) = [Stopping].
Proof.
  split; [|reflexivity].
  exact (proj1
           (proj1
              (stop_strategy_sends_no_signal quiet_env 1 20
                 (sample_state [sample_run 1 Running] [(1, 4242)]))
              4242 eq_refl)).
Defined.

(** ** C2: the status after the child has exited *)

Lemma first_exited_tracked (e : Env) (procs : list (Z * Z)) (run_id c : Z) :
  first_exited e procs = Some (run_id, c) ->
  exists pid, In (run_id, pid) procs /\ poll e pid = Some c.
Proof.
  induction procs as [|[x p] procs IH]; cbn [first_exited]; [discriminate|].
  destruct (poll e p) as [c0|] eqn:Hp.
  - intros [= <- <-]. exists p. split; [now left|assumption].
  - intros H. destruct (IH H) as (pid & Hin & Hpid).
    exists pid. split; [now right|assumption].
Qed.

Lemma first_exited_here (e : Env) (l1 l2 : list (Z * Z)) (run_id pid c : Z) :
  (forall entry, In entry l1 -> poll e (snd entry) = None) ->
  poll e pid = Some c ->
  first_exited e (l1 ++ (run_id, pid) :: l2) = Some (run_id, c).
Proof.
  intros Halive Hexit. induction l1 as [|[x p] l1 IH]; cbn [app first_exited].
  - now rewrite Hexit.
  - pose proof (Halive (x, p) (or_introl eq_refl)) as Hx. cbn [snd] in Hx.
    rewrite Hx. apply IH.
    intros entry Hin. apply Halive. now right.
Qed.

Lemma first_exited_none (e : Env) (procs : list (Z * Z)) :
  (forall entry, In entry procs -> poll e (snd entry) = None) ->
  first_exited e procs = None.
Proof.
  induction procs as [|[x p] procs IH]; intros H; cbn [first_exited];
    [reflexivity|].
  pose proof (H (x, p) (or_introl eq_refl)) as Hx. cbn [snd] in Hx.
  rewrite Hx. apply IH.
  intros entry Hin. apply H. now right.
Qed.




(** ** C3: the heartbeat check *)

Lemma stale_running (threshold : Z) (r : Run) :
  r_status r = Running ->
  (stale threshold r = true
   <-> match r_last_heartbeat r with
       | None => True
       | Some hb => hb < threshold
       end).
Proof.
  intros Hrun. unfold stale. rewrite Hrun. cbn [status_eqb andb].
  destruct (r_last_heartbeat r) as [hb|]; [|tauto].
  apply Z.ltb_lt.
Qed.

Lemma gone_absent (e : Env) (pid : option Z) :
  gone e pid = true
  <-> exists p, pid = Some p /\ p <> 0 /\ pid_exists e p = false.
Proof.
  unfold gone, truthy. destruct pid as [p|]; cbn [andb].
  - rewrite andb_true_iff, !negb_true_iff, Z.eqb_neq. split.
    + intros [Hp He]. now exists p.
    + intros (p' & [= <-] & Hp & He). now split.
  - split; [discriminate|]. intros (p & H & _). discriminate.
Qed.

Lemma stale_is_running (threshold : Z) (r : Run) :
  stale threshold r = true -> r_status r = Running.
Proof.
  unfold stale. intros H. apply andb_true_iff in H as [H _].
  now apply status_eqb_eq.
Qed.

Lemma stale_runs_In (e : Env) (s : State) (run_id : Z) (pid : option Z) :
  In (run_id, pid) (stale_runs e s)
  <-> exists r, In r (runs (db s)) /\ stale (now e - 30) r = true
                /\ r_id r = run_id /\ r_pid r = pid.
Proof.
  unfold stale_runs. rewrite in_map_iff. split.
  - intros (r & [= <- <-] & Hin). apply fetchall_In in Hin.
    apply filter_In in Hin as [Hin Hst]. now exists r.
  - intros (r & Hin & Hst & <- & <-). exists r. split; [reflexivity|].
    apply fetchall_In. apply filter_In. now split.
Qed.

Lemma first_gone_some (e : Env) (s : State) (run_id : Z) (pid : option Z) :
  first_gone e (stale_runs e s) = Some (run_id, pid) ->
  exists r, In r (runs (db s)) /\ r_id r = run_id /\ r_pid r = pid
            /\ doomed e r = true.
Proof.
  unfold first_gone. intros F. apply find_some in F as [Hin Hg].
  cbn [snd] in Hg. apply stale_runs_In in Hin as (r & Hin & Hst & Hid & Hpid).
  exists r. repeat split; try assumption.
  unfold doomed. now rewrite Hst, Hpid, Hg.
Qed.

Lemma first_gone_none (e : Env) (s : State) (r : Run) :
  first_gone e (stale_runs e s) = None ->
  In r (runs (db s)) -> doomed e r = false.
Proof.
  unfold first_gone, doomed. intros F Hin.
  destruct (stale (now e - 30) r) eqn:Hst; [|reflexivity].
  cbn [andb].
  assert (H : In (r_id r, r_pid r) (stale_runs e s)).
  { apply stale_runs_In. now exists r. }
  exact (find_none _ _ F _ H).
Qed.

Lemma key_index (rows : list Run) (j k : nat) (a b : Run) :
  primary_key rows ->
  nth_error rows j = Some a -> nth_error rows k = Some b ->
  r_id a = r_id b -> j = k.
Proof.
  unfold primary_key. intros Hkey Ha Hb Hid.
  apply (proj1 (NoDup_nth_error (map r_id rows)) Hkey).
  - rewrite length_map. apply nth_error_Some. congruence.
  - rewrite !nth_error_map, Ha, Hb. cbn [option_map]. now rewrite Hid.
Qed.




(** ** C8: the event and the final status *)

Lemma monitor_processes_events (e : Env) (s : State) :
  run_events (db (state_of (monitor_processes e s))) = run_events (db s).
Proof.
  rewrite monitor_processes_eq.
  destruct (first_exited e (running_processes s)) as [[run_id c]|];
    [apply update_run_status_events|reflexivity].
Qed.

Lemma check_heartbeats_events (e : Env) (s : State) :
  run_events (db (state_of (check_heartbeats e s))) = run_events (db s).
Proof.
  unfold check_heartbeats. rewrite check_rows_eq.
  destruct (first_gone e (stale_runs e s)) as [[run_id pid]|];
    [apply update_run_status_events|reflexivity].
Qed.

Lemma launch_strategy_events (e : Env) (run : Run) (s : State) :
  run_events (db (state_of (launch_strategy e run s))) = run_events (db s).
Proof.
  rewrite launch_strategy_eq.
  destruct (popen e run); [|reflexivity].
  cbn [state_of]. unfold launched. now rewrite update_run_status_events.
Qed.

(** C8.  The final status is committed with no event before it, and none
    after it.  [monitor_processes] and [check_heartbeats] call
    [update_run_status] first and [add_event] next, and [add_event] raises:
    whatever the state, neither records an event, and neither does
    [launch_strategy].  So a run whose child has exited with return code 1
    is observable as [stopped], and a run whose process is gone as [dead],
    in the one store the call commits, and the table of events is empty
    then and afterwards. *)
Theorem final_status_without_event (e : Env) (s : State) :
  run_events (db (state_of (monitor_processes e s))) = run_events (db s)
  /\ run_events (db (state_of (check_heartbeats e s))) = run_events (db s)
  /\ (forall run,
        run_events (db (state_of (launch_strategy e run s)))
        = run_events (db s))
  /\ (let o := monitor_processes (with_poll quiet_env (fun _ => Some 1))
                 (sample_state [sample_run 1 Running] [(1, 4242)]) in
      raised o = true
      /\ observed (state_of o) = [db (state_of o)]
      /\ map r_status (runs (db (state_of o))) = [Stopped]
      /\ run_events (db (state_of o)) = [])
  /\ (let o := check_heartbeats (with_pid_exists quiet_env (fun _ => false))
                 (sample_state [sample_run 1 Running] [(1, 4242)]) in
      raised o = true
      /\ observed (state_of o) = [db (state_of o)]
      /\ map r_status (runs (db (state_of o))) = [Dead]
      /\ run_events (db (state_of o)) = []).
Proof.
  split; [apply monitor_processes_events|].
  split; [apply check_heartbeats_events|].
  split; [intros run; apply launch_strategy_events|].
  split; repeat split; reflexivity.
Qed.

(** ** C9: the pid of a run that has ended *)

Lemma pids_update_run_status (now_ run_id : Z) (status : Status) (kw : Kwargs)
    (s : State) :
  kw_pid kw = None ->
  pids (update_run_status now_ run_id status kw s) = pids s.
Proof.
  intros Hpid. unfold pids. rewrite update_run_status_db. cbn [runs].
  unfold sql_update. rewrite map_map. apply map_ext. intros r.
  destruct (r_id r =? run_id); [now apply updated_row_pid|reflexivity].
Qed.




(** ** C1: the transitions of the status *)

Lemma filter_keeps_key {K R : Type} (key : R -> K) (keep : R -> bool) :
  forall rows : list R,
    NoDup (map key rows) -> NoDup (map key (filter keep rows)).
Proof.
  intros rows Hnd. induction rows as [|a l IH]; cbn [map filter];
    [constructor|].
  inversion Hnd as [|y ys Hnotin Hnd']; subst.
  destruct (keep a); cbn [map]; [|now apply IH].
  constructor; [|now apply IH].
  intros Hin. apply Hnotin. apply in_map_iff in Hin as (a' & Ha' & Hin).
  apply filter_In in Hin as [Hin _]. apply in_map_iff. now exists a'.
Qed.

Lemma stop_run_two_statements (now_ run_id grace : Z) (s : State) :
  snd (stop_run now_ run_id grace s)
  = if stop_run_accepts run_id s then stop_run_update now_ run_id s else s.
Proof.
  unfold stop_run, stop_run_accepts, stop_run_update.
  destruct (find _ _) as [r|]; [|reflexivity].
  destruct (r_status r); reflexivity.
Qed.

Lemma stop_run_accepts_status (run_id : Z) (s : State) :
  primary_key (runs (db s)) ->
  stop_run_accepts run_id s = true ->
  status_among [Starting; Running] run_id s.
Proof.
  unfold stop_run_accepts, status_among. intros Hkey Hacc r Hin Hid.
  destruct (find (fun x => r_id x =? run_id) (runs (db s))) as [r0|] eqn:F;
    [|discriminate].
  apply find_some in F as [Hin0 Hid0]. apply Z.eqb_eq in Hid0.
  assert (r0 = r) by (eapply primary_key_unique; eauto; congruence).
  subst r0. destruct (r_status r); try discriminate; simpl; tauto.
Qed.

(** A statement that rewrites rows in place keeps what holds all along,
    when the rows it changes move along [edge] and stay within what the
    requests under way expect. *)
Lemma invariant_rewrite (w : System) (s' : State) (keep : Run -> bool)
    (f : Run -> Run) :
  invariant w ->
  runs (db s') = sql_update keep f (runs (db (service w))) ->
  running_processes s' = [] ->
  (forall r, r_id (f r) = r_id r) ->
  (forall r, In r (runs (db (service w))) -> keep r = true ->
     (r_status (f r) = r_status r
      \/ edge (r_status r) (r_status (f r)) = true)
     /\ (In (r_id r) (accepted w) ->
         In (r_status (f r)) [Starting; Running; Stopping; Dead])
     /\ (In (r_id r) (map fst (fetched w)) ->
         In (r_status (f r)) [Running; Stopping; Dead])) ->
  invariant (with_service s' w)
  /\ transition edge (db (service w)) (db s').
Proof.
  intros (Hkey & Hnone & Hids & Hacc & Hfet) Hruns Hprocs Hid Hmove.
  assert (Hrow : forall r', In r' (runs (db s')) ->
            exists r, In r (runs (db (service w)))
                      /\ r' = (if keep r then f r else r)).
  { intros r' Hin. rewrite Hruns in Hin. now apply sql_update_In in Hin. }
  split.
  - unfold invariant. cbn [with_service service accepted fetched next_id].
    split; [|split; [|split; [|split]]].
    + unfold primary_key. rewrite Hruns, sql_update_ids; assumption.
    + assumption.
    + intros r' Hin. destruct (Hrow r' Hin) as (r & Hr & ->).
      destruct (keep r); [rewrite Hid|]; now apply Hids.
    + intros run_id Hin. destruct (Hacc run_id Hin) as [Hlt Hst].
      split; [assumption|]. intros r' Hin' Hid'.
      destruct (Hrow r' Hin') as (r & Hr & ->).
      destruct (keep r) eqn:Hk.
      * rewrite Hid in Hid'. apply (Hmove r Hr Hk). now rewrite Hid'.
      * now apply Hst.
    + intros row Hin. destruct (Hfet row Hin) as [Hlt Hst].
      split; [assumption|]. intros r' Hin' Hid'.
      destruct (Hrow r' Hin') as (r & Hr & ->).
      destruct (keep r) eqn:Hk.
      * rewrite Hid in Hid'. apply (Hmove r Hr Hk). rewrite Hid'.
        now apply in_map.
      * now apply Hst.
  - intros r' Hin. left. destruct (Hrow r' Hin) as (r & Hr & ->).
    exists r. split; [assumption|]. destruct (keep r) eqn:Hk.
    + split; [now rewrite Hid|]. apply (Hmove r Hr Hk).
    + split; [reflexivity|now left].
Qed.

(** A step that leaves the store alone. *)
Lemma invariant_same_store (w : System) (s' : State)
    (acc : list Z) (fet : list (Z * option Z)) :
  invariant w ->
  db s' = db (service w) ->
  running_processes s' = [] ->
  (forall run_id, In run_id acc ->
     run_id < next_id w
     /\ status_among [Starting; Running; Stopping; Dead] run_id (service w)) ->
  (forall row, In row fet ->
     fst row < next_id w
     /\ status_among [Running; Stopping; Dead] (fst row) (service w)) ->
  invariant (mkSystem s' acc fet (next_id w))
  /\ transition edge (db (service w)) (db s').
Proof.
  intros (Hkey & Hnone & Hids & _ & _) Hdb Hprocs Hacc Hfet.
  split.
  - unfold invariant, status_among in *.
    cbn [service accepted fetched next_id]. rewrite Hdb.
    repeat split; try assumption.
    + now apply Hacc.
    + now apply Hacc.
    + now apply Hfet.
    + now apply Hfet.
  - intros r' Hin. left. rewrite Hdb in Hin. exists r'.
    split; [assumption|]. split; [reflexivity|now left].
Qed.

Lemma status_among_weaken (l l' : list Status) (run_id : Z) (s : State) :
  incl l l' -> status_among l run_id s -> status_among l' run_id s.
Proof. intros Hincl H r Hin Hid. apply Hincl. now apply H. Qed.

Lemma invariant_initial (w : System) : initial w -> invariant w.
Proof.
  intros (Hs & Hacc & Hfet & Hkey & Hids). unfold invariant.
  rewrite Hacc, Hfet. split; [assumption|]. split; [now rewrite Hs|].
  split; [assumption|]. split; intros x [].
Qed.

Lemma step_invariant (w w' : System) :
  invariant w -> step w w' ->
  invariant w' /\ transition edge (db (service w)) (db (service w')).
Proof.
  intros Hinv Hstep.
  pose proof Hinv as (Hkey & Hnone & Hids & Hacc & Hfet).
  destruct Hstep as [now_ run_id|e entry Hin|e|e [run_id pid] Hin
                     |e run_id grace_period|run_id Haccepts|now_ run_id Hin
                     |now_ run_id|now_ run|run_id];
    cbn [with_service service].
  - (* claim_run *)
    rewrite claim_run_eq. destruct (claimable run_id (service w)) eqn:Hc;
      cbn [state_of].
    + apply (invariant_rewrite w _
               (fun r => (r_id r =? run_id) && status_eqb (r_status r) Pending)
               (assign_all [set_status Starting; set_updated_at now_]) Hinv);
        [reflexivity|assumption|reflexivity|].
      intros r Hr Hk. apply andb_true_iff in Hk as [_ Hst].
      apply status_eqb_eq in Hst.
      split; [right; now rewrite Hst|]. split.
      * intros _. simpl. tauto.
      * intros Hf. apply in_map_iff in Hf as (row & Hrow & Hf).
        destruct (Hfet row Hf) as [_ Hamong].
        specialize (Hamong r Hr (eq_sym Hrow)). rewrite Hst in Hamong.
        simpl in Hamong. intuition discriminate.
    + apply (invariant_same_store w (service w) (accepted w) (fetched w));
        auto.
  - (* monitor_processes *)
    rewrite Hnone in Hin. destruct Hin.
  - (* the SELECT of check_heartbeats *)
    apply (invariant_same_store w (service w) (accepted w)
             (stale_runs e (service w) ++ fetched w)); auto.
    intros [run_id pid] Hin. apply in_app_or in Hin as [Hin|Hin];
      [|now apply Hfet].
    apply stale_runs_In in Hin as (r & Hr & Hst & Hid & _). cbn [fst].
    split; [rewrite <- Hid; now apply Hids|].
    intros r2 Hr2 Hid2.
    assert (r2 = r) by (eapply primary_key_unique; eauto; congruence).
    subst r2. rewrite (stale_is_running _ _ Hst). simpl. tauto.
  - (* check_heartbeats at a fetched row *)
    rewrite check_one_eq. destruct (gone e pid); cbn [state_of].
    + apply (invariant_rewrite w _ (fun r => r_id r =? run_id)
               (updated_row (now e) Dead dead_kwargs) Hinv);
        [now rewrite update_run_status_db|assumption
        |intros r; apply updated_row_id|].
      intros r Hr Hk. apply Z.eqb_eq in Hk.
      rewrite updated_row_status.
      destruct (Hfet _ Hin) as [_ Hamong]. cbn [fst] in Hamong.
      specialize (Hamong r Hr Hk).
      split; [|split; intros _; simpl; tauto].
      simpl in Hamong.
      destruct Hamong as [<-|[<-|[<-|[]]]];
        [now right|now right|now left].
    + apply (invariant_same_store w (service w) (accepted w) (fetched w));
        auto.
  - (* stop_strategy *)
    rewrite stop_strategy_eq, Hnone. cbn [dict_get state_of].
    apply (invariant_same_store w (service w) (accepted w) (fetched w)); auto.
  - (* the SELECT of stop_run *)
    apply (invariant_same_store w (service w) (run_id :: accepted w)
             (fetched w)); auto.
    intros x [<-|Hin]; [|now apply Hacc].
    pose proof (stop_run_accepts_status _ _ Hkey Haccepts) as Hamong.
    split.
    + unfold stop_run_accepts in Haccepts.
      destruct (find (fun r => r_id r =? run_id) (runs (db (service w))))
        as [r|] eqn:F; [|discriminate].
      apply find_some in F as [Hr Hid]. apply Z.eqb_eq in Hid.
      rewrite <- Hid. now apply Hids.
    + apply (status_among_weaken [Starting; Running]); [|assumption].
      intros a [<-|[<-|[]]]; simpl; tauto.
  - (* the UPDATE of stop_run *)
    apply (invariant_rewrite w _ (fun r => r_id r =? run_id)
             (assign_all [set_status Stopping; set_updated_at now_]) Hinv);
      [reflexivity|assumption|reflexivity|].
    intros r Hr Hk. apply Z.eqb_eq in Hk.
    destruct (Hacc _ Hin) as [_ Hamong]. specialize (Hamong r Hr Hk).
    split; [|split; intros _; simpl; tauto].
    simpl in Hamong. cbn [assign_all fold_left assign r_status].
    destruct Hamong as [<-|[<-|[<-|[<-|[]]]]];
      [now right|now right|now left|now right].
  - (* update_heartbeat *)
    apply (invariant_rewrite w _ (fun r => r_id r =? run_id)
             (assign (set_last_heartbeat now_)) Hinv);
      [reflexivity|assumption|reflexivity|].
    intros r Hr Hk. split; [now left|]. split.
    + intros Hin. destruct (Hacc _ Hin) as [_ Hamong].
      exact (Hamong r Hr eq_refl).
    + intros Hin. apply in_map_iff in Hin as (row & Hrow & Hin).
      destruct (Hfet _ Hin) as [_ Hamong].
      exact (Hamong r Hr (eq_sym Hrow)).
  - (* create_run *)
    cbn [create_run snd db commit runs].
    assert (Hfresh : forall r, In r (runs (db (service w))) ->
              r_id r <> next_id w).
    { intros r Hr Heq. specialize (Hids r Hr). lia. }
    split.
    + unfold invariant, status_among.
      cbn [service accepted fetched next_id db commit runs
           running_processes].
      split; [|split; [|split; [|split]]].
      * unfold primary_key. rewrite map_app. cbn [map created_row r_id].
        apply NoDup_app; [assumption|repeat constructor; intros []|].
        intros x Hx [<-|[]]. apply in_map_iff in Hx as (r & Hid & Hr).
        exact (Hfresh r Hr Hid).
      * assumption.
      * intros r Hr. apply in_app_or in Hr as [Hr|[<-|[]]].
        -- specialize (Hids r Hr). lia.
        -- cbn [created_row r_id]. lia.
      * intros x Hin. destruct (Hacc x Hin) as [Hlt Hamong].
        split; [lia|]. intros r Hr Hid.
        apply in_app_or in Hr as [Hr|[<-|[]]]; [now apply Hamong|].
        cbn [created_row r_id] in Hid. lia.
      * intros row Hin. destruct (Hfet row Hin) as [Hlt Hamong].
        split; [lia|]. intros r Hr Hid.
        apply in_app_or in Hr as [Hr|[<-|[]]]; [now apply Hamong|].
        cbn [created_row r_id] in Hid. lia.
    + intros r' Hr'. apply in_app_or in Hr' as [Hr'|[<-|[]]].
      * left. exists r'. split; [assumption|].
        split; [reflexivity|now left].
      * right. split; [|reflexivity].
        intros r Hr. cbn [created_row r_id]. now apply Hfresh.
  - (* delete_run *)
    cbn [db commit delete_rows runs].
    split.
    + unfold invariant, status_among.
      cbn [service accepted fetched next_id db commit runs
           running_processes].
      split; [|split; [|split; [|split]]].
      * now apply filter_keeps_key.
      * assumption.
      * intros r Hr. apply filter_In in Hr as [Hr _]. now apply Hids.
      * intros x Hin. destruct (Hacc x Hin) as [Hlt Hamong].
        split; [assumption|]. intros r Hr.
        apply filter_In in Hr as [Hr _]. now apply Hamong.
      * intros row Hin. destruct (Hfet row Hin) as [Hlt Hamong].
        split; [assumption|]. intros r Hr.
        apply filter_In in Hr as [Hr _]. now apply Hamong.
    + intros r' Hr'. apply filter_In in Hr' as [Hr' _]. left. exists r'.
      split; [assumption|]. split; [reflexivity|now left].
Qed.

Lemma steps_invariant (w0 w : System) :
  initial w0 -> steps w0 w -> invariant w.
Proof.
  intros Hinit Hsteps. induction Hsteps as [|w1 w2 _ IH Hstep].
  - now apply invariant_initial.
  - now apply (step_invariant w1 w2 IH).
Qed.




(** ** The calls of the code are paths of the system *)

Lemma tick_eq (e : Env) (s : State) :
  running_processes s = [] ->
  tick e s
  = match find (fun run => claimable (r_id run) s) (get_pending_runs e s) with
    | Some run => state_of (claim_run (now e) (r_id run) s)
    | None =>
        match first_gone e (stale_runs e s) with
        | Some row => state_of (check_one e row s)
        | None => s
        end
    end.
Proof.
  intros Hnone. unfold tick, iteration. rewrite claim_rows_eq.
  destruct (find _ (get_pending_runs e s)) as [run|] eqn:F.
  - apply find_some in F as [_ Hc]. rewrite claim_run_eq.
    cbn beta in Hc. now rewrite Hc.
  - cbn [and_then]. rewrite monitor_processes_eq, Hnone.
    cbn [first_exited and_then]. unfold check_heartbeats.
    rewrite check_rows_eq.
    destruct (first_gone e (stale_runs e s)) as [[run_id pid]|] eqn:G;
      [|reflexivity].
    apply find_some in G as [_ Hg]. cbn [snd] in Hg.
    now rewrite check_one_eq, Hg.
Qed.

Lemma shutdown_eq (e : Env) (s : State) :
  running_processes s = [] -> shutdown e s = Returns tt s.
Proof. intros Hnone. unfold shutdown. now rewrite Hnone. Qed.

(** * Further properties of the service and of the endpoints *)

(** ** Claiming and launching *)

Lemma claim_update_claimable (now_ run_id : Z) (s : State) :
  claimable run_id (claim_update now_ run_id s) = false.
Proof.
  unfold claimable, claim_update. cbn [db commit runs]. unfold sql_update.
  induction (runs (db s)) as [|r rows IH]; [reflexivity|].
  cbn [map existsb]. rewrite IH, orb_false_r.
  destruct ((r_id r =? run_id) && status_eqb (r_status r) Pending) eqn:E;
    [|exact E].
  cbn [assign_all fold_left assign r_status r_id status_eqb].
  apply andb_false_r.
Qed.

(** A run is claimed at most once: whatever the first call of [claim_run]
    answered, a second call for the same id answers [False] and changes
    neither the store nor the service. *)
Theorem claim_run_at_most_once (now1 now2 run_id : Z) (s : State) :
  claim_run now2 run_id (state_of (claim_run now1 run_id s))
  = Returns false (state_of (claim_run now1 run_id s)).
Proof.
  rewrite (claim_run_eq now1). destruct (claimable run_id s) eqn:Hc;
    cbn [state_of]; rewrite claim_run_eq.
  - now rewrite claim_update_claimable.
  - now rewrite Hc.
Qed.

Lemma default_cfg_id (r : Run) : r_id (default_cfg r) = r_id r.
Proof. unfold default_cfg. now destruct (r_cfg r). Qed.

Lemma default_cfg_status (r : Run) : r_status (default_cfg r) = r_status r.
Proof. unfold default_cfg. now destruct (r_cfg r). Qed.

Lemma get_pending_runs_In (e : Env) (s : State) (run : Run) :
  In run (get_pending_runs e s)
  <-> exists r, In r (runs (db s)) /\ r_status r = Pending
                /\ run = default_cfg r.
Proof.
  unfold get_pending_runs. rewrite in_map_iff. split.
  - intros (r & Hrun & Hin). apply fetchall_In in Hin.
    apply filter_In in Hin as [Hin Hst]. apply status_eqb_eq in Hst.
    exists r. split; [assumption|]. split; [assumption|now symmetry].
  - intros (r & Hin & Hst & ->). exists r. split; [reflexivity|].
    apply fetchall_In. apply filter_In. split; [assumption|].
    now apply status_eqb_eq.
Qed.

Lemma get_pending_runs_claimable (e : Env) (s : State) (run : Run) :
  In run (get_pending_runs e s) -> claimable (r_id run) s = true.
Proof.
  intros Hin. apply get_pending_runs_In in Hin as (r & Hin & Hst & ->).
  apply claimable_true. exists r. split; [assumption|].
  split; [now rewrite default_cfg_id|assumption].
Qed.

(** An iteration of the loop that finds pending runs claims one and ends:
    the first run the [SELECT] returns is marked [starting], [claim_run]
    raises, and the handler of the loop takes over.  The other pending
    runs stay [pending], no process is started, no event is recorded, and
    neither [monitor_processes] nor [check_heartbeats] is run. *)
Theorem tick_claims_one
    (e : Env) (s : State) (run : Run) (rest : list Run)
    (Hpending : get_pending_runs e s = run :: rest) :
  iteration e s = Raises insert_rejected (claim_update (now e) (r_id run) s)
  /\ tick e s = claim_update (now e) (r_id run) s
  /\ (forall i r, nth_error (runs (db s)) i = Some r ->
        nth_error (runs (db (tick e s))) i
        = Some (if (r_id r =? r_id run) && status_eqb (r_status r) Pending
                then claimed_row (now e) r else r))
  /\ running_processes (tick e s) = running_processes s
  /\ run_events (db (tick e s)) = run_events (db s).
Proof.
  assert (Hc : claimable (r_id run) s = true).
  { apply (get_pending_runs_claimable e). rewrite Hpending. now left. }
  assert (Hit : iteration e s
                = Raises insert_rejected (claim_update (now e) (r_id run) s)).
  { unfold iteration. rewrite claim_rows_eq, Hpending. cbn [find].
    now rewrite Hc. }
  unfold tick. rewrite Hit. cbn [state_of].
  split; [reflexivity|]. split; [reflexivity|]. split; [|split; reflexivity].
  intros i r Hrow. now rewrite claim_update_nth, Hrow.
Qed.

Lemma tick_claims_one_witness :
  let s := sample_state [sample_run 1 Pending; sample_run 2 Pending] [] in
  tick quiet_env s = claim_update 200 1 s
  /\ map r_status (runs (db (tick quiet_env s))) = [Starting; Pending].
Proof.
  split; [|reflexivity].
  exact (proj1 (proj2
           (tick_claims_one quiet_env
              (sample_state [sample_run 1 Pending; sample_run 2 Pending] [])
              (sample_run 1 Pending) [sample_run 2 Pending] eq_refl))).
Defined.

Lemma dict_get_set {V : Type} (k : Z) (v : V) (d : list (Z * V)) :
  dict_get k (dict_set k v d) = Some v.
Proof.
  induction d as [|[k0 v0] d IH]; cbn [dict_set dict_get].
  - now rewrite Z.eqb_refl.
  - destruct (Z.eqb_spec k k0) as [->|Hne]; cbn [dict_get].
    + now rewrite Z.eqb_refl.
    + destruct (Z.eqb_spec k k0); [contradiction|exact IH].
Qed.

(** A launch whose child starts: [launch_strategy] tracks the child under
    the id of the run, with the log file [logs/run_<id>.log], and writes
    [running] with the pid, the host and the start time into the row of
    the run, whatever the status of the row is (the [UPDATE] selects by id
    alone).  It then raises from [add_event]: it does not return the pid,
    and no event is recorded. *)
Theorem launch_strategy_writes_running
    (e : Env) (run : Run) (pid : Z) (s : State)
    (Hspawn : popen e run = Spawned pid) :
  let s' := state_of (launch_strategy e run s) in
  launch_strategy e run s = Raises insert_rejected s'
  /\ (forall i r, nth_error (runs (db s)) i = Some r ->
        nth_error (runs (db s')) i
        = Some (if r_id r =? r_id run
                then launched_row (now e) pid (node e) r else r))
  /\ dict_get (r_id run) (running_processes s') = Some pid
  /\ dict_get (r_id run) (process_info s')
     = Some (mkInfo pid (now e) (log_file (r_id run)))
  /\ run_events (db s') = run_events (db s).
Proof.
  intros s'. subst s'. rewrite launch_strategy_eq, Hspawn. cbn [state_of].
  split; [reflexivity|]. unfold launched. split; [|split; [|split]].
  - intros i r Hrow. rewrite update_run_status_nth. cbn [db set_process_info
      set_running_processes]. rewrite Hrow. cbn [option_map].
    now rewrite updated_row_launched.
  - rewrite update_run_status_running_processes.
    cbn [running_processes set_process_info set_running_processes].
    apply dict_get_set.
  - rewrite update_run_status_process_info.
    cbn [process_info set_process_info set_running_processes].
    apply dict_get_set.
  - now rewrite update_run_status_events.
Qed.

Lemma launch_strategy_writes_running_witness :
  let s := sample_state [sample_run 1 Stopping] [] in
  let s' := state_of (launch_strategy quiet_env (sample_run 1 Stopping) s) in
  statuses 1 s' = [Running]
  /\ dict_get 1 (running_processes s') = Some 4242.
Proof.
  split; [reflexivity|].
  exact (proj1 (proj2 (proj2
           (launch_strategy_writes_running quiet_env (sample_run 1 Stopping)
              4242 (sample_state [sample_run 1 Stopping] []) eq_refl)))).
Defined.

(** ** The order of the rows a [SELECT] returns *)

Lemma place_Permutation (rank : Run -> Z) (r : Run) (rows : list Run) :
  Permutation (place rank r rows) (r :: rows).
Proof.
  induction rows as [|r' rows IH]; cbn [place]; [apply Permutation_refl|].
  destruct (rank r <=? rank r'); [apply Permutation_refl|].
  apply (perm_trans (perm_skip r' IH)). apply perm_swap.
Qed.

Lemma fetchall_Permutation (e : Env) (rows : list Run) :
  Permutation (fetchall e rows) rows.
Proof.
  unfold fetchall. induction rows as [|r rows IH]; cbn [fold_right];
    [apply Permutation_refl|].
  apply (perm_trans (place_Permutation _ _ _)). now apply perm_skip.
Qed.

(** [get_pending_runs] returns the pending rows, each once and each with a
    dictionary as [cfg], in an order that is the database's to choose; and
    the choice shows: of two pending runs, an iteration of the loop claims
    the one that comes first. *)
Theorem get_pending_runs_any_order (e : Env) (s : State) :
  Permutation (get_pending_runs e s)
    (map default_cfg
       (filter (fun r => status_eqb (r_status r) Pending) (runs (db s))))
  /\ (forall run, In run (get_pending_runs e s) ->
        r_status run = Pending /\ r_cfg run <> None)
  /\ (let s0 := sample_state [sample_run 1 Pending; sample_run 2 Pending] [] in
      map r_status (runs (db (tick quiet_env s0))) = [Starting; Pending]
      /\ map r_status
           (runs (db (tick (with_row_order quiet_env (fun r => - r_id r)) s0)))
         = [Pending; Starting]).
Proof.
  split; [|split].
  - unfold get_pending_runs. apply Permutation_map. apply fetchall_Permutation.
  - intros run Hin. apply get_pending_runs_In in Hin as (r & _ & Hst & ->).
    split; [now rewrite default_cfg_status|].
    unfold default_cfg. destruct (r_cfg r) eqn:E; cbn [r_cfg]; congruence.
  - split; reflexivity.
Qed.

(** ** The loop as a whole *)

Lemma tick_tracks_nothing (e : Env) (s : State) :
  running_processes s = [] -> process_info s = [] ->
  running_processes (tick e s) = [] /\ process_info (tick e s) = [].
Proof.
  intros Hp Hi. rewrite (tick_eq e s Hp).
  destruct (find _ (get_pending_runs e s)) as [run|].
  - rewrite claim_run_eq. destruct (claimable _ _); now split.
  - destruct (first_gone e (stale_runs e s)) as [[run_id pid]|];
      [|now split].
    rewrite check_one_eq. destruct (gone e pid); now split.
Qed.

Lemma tick_rows (e : Env) (s : State) (r' : Run) :
  running_processes s = [] ->
  In r' (runs (db (tick e s))) ->
  In r' (runs (db s)) \/ r_status r' = Starting \/ r_status r' = Dead.
Proof.
  intros Hp. rewrite (tick_eq e s Hp).
  destruct (find _ (get_pending_runs e s)) as [run|].
  - rewrite claim_run_eq. destruct (claimable _ _); cbn [state_of];
      [|now left].
    unfold claim_update. cbn [db commit runs]. intros Hin.
    apply sql_update_In in Hin as (r & Hr & ->).
    destruct (_ && _); [right; now left|now left].
  - destruct (first_gone e (stale_runs e s)) as [[run_id pid]|];
      [|now left].
    rewrite check_one_eq. destruct (gone e pid); cbn [state_of]; [|now left].
    rewrite update_run_status_db. cbn [runs]. intros Hin.
    apply sql_update_In in Hin as (r & Hr & ->).
    destruct (r_id r =? run_id); [|now left].
    right. right. apply updated_row_status.
Qed.

(** The service never launches a run.  From the constructor on, however
    many iterations the loop makes and whatever they find, no process is
    tracked, and a row that is [running] at the end is a row of the store
    the service started with, column by column: nothing the loop writes
    makes a run [running].  The shutdown then finds nothing to stop. *)
Theorem run_loop_launches_nothing (envs : list Env) (st : Store) :
  let s := run_loop envs (new_service st) in
  running_processes s = []
  /\ process_info s = []
  /\ (forall r, In r (runs (db s)) -> r_status r = Running -> In r (runs st))
  /\ (forall e, shutdown e s = Returns tt s).
Proof.
  intros s. subst s. unfold run_loop.
  assert (Hgen : forall s0,
            running_processes s0 = [] -> process_info s0 = [] ->
            (forall r, In r (runs (db s0)) -> r_status r = Running ->
               In r (runs st)) ->
            let s := fold_left (fun acc e => tick e acc) envs s0 in
            running_processes s = [] /\ process_info s = []
            /\ (forall r, In r (runs (db s)) -> r_status r = Running ->
                  In r (runs st))).
  { induction envs as [|e envs IH]; intros s0 Hp Hi Hr; cbn [fold_left].
    - now repeat split.
    - destruct (tick_tracks_nothing e s0 Hp Hi) as [Hp1 Hi1].
      apply IH; [assumption|assumption|].
      intros r Hin Hst.
      destruct (tick_rows e s0 r Hp Hin) as [H|[H|H]];
        [now apply Hr|congruence|congruence]. }
  destruct (Hgen (new_service st)) as (H1 & H2 & H3);
    [reflexivity|reflexivity|now intros r Hin _|].
  split; [assumption|]. split; [assumption|]. split; [assumption|].
  intros e. now apply shutdown_eq.
Qed.

(** A run the loop has claimed stays [starting]: with no process tracked,
    an iteration leaves every row that is [starting] as it is. *)
Theorem tick_leaves_starting
    (e : Env) (s : State) (i : nat) (r : Run)
    (Hkey : primary_key (runs (db s)))
    (Hnone : running_processes s = [])
    (Hrow : nth_error (runs (db s)) i = Some r)
    (Hstarting : r_status r = Starting) :
  nth_error (runs (db (tick e s))) i = Some r.
Proof.
  rewrite (tick_eq e s Hnone).
  destruct (find _ (get_pending_runs e s)) as [run|].
  - rewrite claim_run_eq. destruct (claimable _ _); cbn [state_of];
      [|assumption].
    rewrite claim_update_nth, Hrow. cbn [option_map]. rewrite Hstarting.
    cbn [status_eqb]. now rewrite andb_false_r.
  - destruct (first_gone e (stale_runs e s)) as [[run_id pid]|] eqn:F;
      [|assumption].
    rewrite check_one_eq. destruct (gone e pid); cbn [state_of];
      [|assumption].
    rewrite update_run_status_nth, Hrow. cbn [option_map].
    destruct (Z.eqb_spec (r_id r) run_id) as [Heq|Hne]; [|reflexivity].
    exfalso. apply find_some in F as [Hin _].
    apply stale_runs_In in Hin as (r2 & Hr2 & Hst & Hid & _).
    apply stale_is_running in Hst.
    assert (r2 = r).
    { eapply primary_key_unique; eauto; [|congruence].
      eapply nth_error_In; eassumption. }
    subst r2. congruence.
Qed.

Lemma tick_leaves_starting_witness :
  let e := with_pid_exists quiet_env (fun _ => false) in
  let s := sample_state [sample_run 1 Starting; sample_run 2 Running] [] in
  nth_error (runs (db (tick e s))) 0 = Some (sample_run 1 Starting).
Proof.
  refine (tick_leaves_starting
            (with_pid_exists quiet_env (fun _ => false))
            (sample_state [sample_run 1 Starting; sample_run 2 Running] [])
            0 (sample_run 1 Starting) _ eq_refl eq_refl eq_refl).
  unfold primary_key. simpl.
  repeat constructor; simpl; intuition discriminate.
Defined.

(** ** Runs the monitor and the heartbeat check leave alone *)

Lemma events_of_update_run_status (x now_ run_id : Z) (status : Status)
    (kw : Kwargs) (s : State) :
  events_of x (update_run_status now_ run_id status kw s) = events_of x s.
Proof. unfold events_of. now rewrite update_run_status_events. Qed.

(** A run whose child is still running is left alone by
    [monitor_processes]: when [poll] answers [None] for every process
    tracked under the id, the row of the run is unchanged, no event is
    written for it, and its processes stay tracked. *)
Theorem monitor_processes_leaves_running
    (e : Env) (s : State) (x : Z) (i : nat) (r : Run)
    (Halive : forall pid, In (x, pid) (running_processes s) ->
                poll e pid = None)
    (Hrow : nth_error (runs (db s)) i = Some r)
    (Hid : r_id r = x) :
  nth_error (runs (db (state_of (monitor_processes e s)))) i = Some r
  /\ events_of x (state_of (monitor_processes e s)) = events_of x s
  /\ (forall pid, In (x, pid) (running_processes s) ->
        In (x, pid) (running_processes (state_of (monitor_processes e s)))).
Proof.
  rewrite monitor_processes_eq.
  destruct (first_exited e (running_processes s)) as [[run_id c]|] eqn:F;
    cbn [state_of]; [|now repeat split].
  apply first_exited_tracked in F as (pid & Hin & Hpid).
  assert (Hne : run_id <> x).
  { intros ->. rewrite (Halive pid Hin) in Hpid. discriminate. }
  split; [|split].
  - rewrite update_run_status_nth, Hrow. cbn [option_map].
    now replace (r_id r =? run_id) with false
      by (symmetry; apply Z.eqb_neq; congruence).
  - apply events_of_update_run_status.
  - intros p Hp. exact Hp.
Qed.

Lemma monitor_processes_leaves_running_witness :
  let s := sample_state [sample_run 1 Running; sample_run 2 Running]
             [(1, 4242); (2, 4343)] in
  let e := with_poll quiet_env (fun pid => if pid =? 4343 then Some 0 else None) in
  nth_error (runs (db (state_of (monitor_processes e s)))) 0
  = Some (sample_run 1 Running)
  /\ events_of 1 (state_of (monitor_processes e s)) = events_of 1 s
  /\ (forall pid, In (1, pid) (running_processes s) ->
        In (1, pid) (running_processes (state_of (monitor_processes e s)))).
Proof.
  refine (monitor_processes_leaves_running
            (with_poll quiet_env
               (fun pid => if pid =? 4343 then Some 0 else None))
            (sample_state [sample_run 1 Running; sample_run 2 Running]
               [(1, 4242); (2, 4343)])
            1 0 (sample_run 1 Running) _ eq_refl eq_refl).
  intros pid [H|[H|[]]]; inversion H. reflexivity.
Defined.

Lemma check_heartbeats_frame (e : Env) (s : State) (i : nat) (r : Run) :
  primary_key (runs (db s)) ->
  nth_error (runs (db s)) i = Some r ->
  stale (now e - 30) r = false \/ gone e (r_pid r) = false ->
  nth_error (runs (db (state_of (check_heartbeats e s)))) i = Some r
  /\ events_of (r_id r) (state_of (check_heartbeats e s))
     = events_of (r_id r) s.
Proof.
  intros Hkey Hrow Hsafe. unfold check_heartbeats. rewrite check_rows_eq.
  destruct (first_gone e (stale_runs e s)) as [[run_id pid]|] eqn:F;
    cbn [state_of]; [|now split].
  destruct (first_gone_some e s run_id pid F)
    as (r2 & Hin2 & Hid2 & Hpid2 & Hd2).
  unfold doomed in Hd2. apply andb_true_iff in Hd2 as [Hst2 Hg2].
  assert (Hne : r_id r <> run_id).
  { intros Heq. assert (r2 = r).
    { eapply primary_key_unique; eauto; [|congruence].
      eapply nth_error_In; eassumption. }
    subst r2. destruct Hsafe; congruence. }
  split.
  - rewrite update_run_status_nth, Hrow. cbn [option_map].
    now replace (r_id r =? run_id) with false
      by (symmetry; now apply Z.eqb_neq).
  - apply events_of_update_run_status.
Qed.

(** [check_heartbeats] touches only runs that are [running]: a row in any
    other status is left as it is, with no event, however old its heartbeat
    is and whether or not its process exists. *)
Theorem check_heartbeats_only_running
    (e : Env) (s : State) (i : nat) (r : Run)
    (Hkey : primary_key (runs (db s)))
    (Hrow : nth_error (runs (db s)) i = Some r)
    (Hstatus : r_status r <> Running) :
  nth_error (runs (db (state_of (check_heartbeats e s)))) i = Some r
  /\ events_of (r_id r) (state_of (check_heartbeats e s))
     = events_of (r_id r) s.
Proof.
  apply check_heartbeats_frame; [assumption|assumption|]. left.
  unfold stale. destruct (r_status r); try reflexivity. contradiction.
Qed.

Lemma check_heartbeats_only_running_witness :
  let e := with_pid_exists quiet_env (fun _ => false) in
  let s := sample_state [sample_run 1 Stopping] [(1, 4242)] in
  nth_error (runs (db (state_of (check_heartbeats e s)))) 0
  = Some (sample_run 1 Stopping)
  /\ events_of 1 (state_of (check_heartbeats e s)) = events_of 1 s.
Proof.
  refine (check_heartbeats_only_running
            (with_pid_exists quiet_env (fun _ => false))
            (sample_state [sample_run 1 Stopping] [(1, 4242)])
            0 (sample_run 1 Stopping) _ eq_refl _).
  - unfold primary_key. simpl. repeat constructor. intros [].
  - discriminate.
Defined.

Lemma update_heartbeat_nth (now_ run_id : Z) (s : State) (i : nat) (r : Run) :
  nth_error (runs (db s)) i = Some r ->
  nth_error (runs (db (update_heartbeat now_ run_id s))) i
  = Some (if r_id r =? run_id then heartbeat_row now_ r else r).
Proof.
  intros Hrow. unfold update_heartbeat. cbn [db commit runs].
  rewrite sql_update_nth, Hrow. reflexivity.
Qed.

(** A heartbeat protects a run for 30 seconds, the last one included: after
    the child has written a heartbeat at time [t], a heartbeat check at any
    time up to [t + 30] leaves the run as the heartbeat left it (only
    [last_heartbeat] changed) and writes no event for it, even if the
    liveness probe no longer finds the process. *)
Theorem fresh_heartbeat_keeps_run
    (e : Env) (t run_id : Z) (s : State) (i : nat) (r : Run)
    (Hkey : primary_key (runs (db s)))
    (Hrow : nth_error (runs (db s)) i = Some r)
    (Hid : r_id r = run_id)
    (Hfresh : now e <= t + 30) :
  let s1 := update_heartbeat t run_id s in
  nth_error (runs (db (state_of (check_heartbeats e s1)))) i
  = Some (heartbeat_row t r)
  /\ events_of run_id (state_of (check_heartbeats e s1)) = events_of run_id s.
Proof.
  intros s1. subst s1.
  assert (H1 : nth_error (runs (db (update_heartbeat t run_id s))) i
               = Some (heartbeat_row t r)).
  { rewrite (update_heartbeat_nth t run_id s i r Hrow).
    now replace (r_id r =? run_id) with true by (symmetry; now apply Z.eqb_eq). }
  assert (Hkey1 : primary_key (runs (db (update_heartbeat t run_id s)))).
  { unfold primary_key, update_heartbeat. cbn [db commit runs].
    rewrite sql_update_ids; [assumption|reflexivity]. }
  destruct (check_heartbeats_frame e (update_heartbeat t run_id s) i
              (heartbeat_row t r) Hkey1 H1) as [H2 H3].
  { left. unfold stale. cbn [heartbeat_row r_last_heartbeat r_status].
    replace (t <? now e - 30) with false by (symmetry; apply Z.ltb_ge; lia).
    apply andb_false_r. }
  split; [exact H2|].
  cbn [heartbeat_row r_id] in H3. rewrite Hid in H3. exact H3.
Qed.

Lemma fresh_heartbeat_keeps_run_witness :
  let e := with_pid_exists quiet_env (fun _ => false) in
  let s := sample_state [sample_run 1 Running] [(1, 4242)] in
  let s1 := update_heartbeat 170 1 s in
  nth_error (runs (db (state_of (check_heartbeats e s1)))) 0
  = Some (heartbeat_row 170 (sample_run 1 Running))
  /\ events_of 1 (state_of (check_heartbeats e s1)) = events_of 1 s.
Proof.
  refine (fresh_heartbeat_keeps_run
            (with_pid_exists quiet_env (fun _ => false)) 170 1
            (sample_state [sample_run 1 Running] [(1, 4242)])
            0 (sample_run 1 Running) _ eq_refl eq_refl _).
  - unfold primary_key. simpl. repeat constructor. intros [].
  - simpl. lia.
Defined.


(** ** Stop requests *)

(** A stop request the endpoint accepts only marks the run: the row gets
    the status [stopping] and a new [updated_at], no event is written and
    the service's table of processes is not touched (no signal is sent).
    A second request for the same run is refused with the error 400. *)
Theorem stop_run_marks_once
    (now1 now2 run_id grace1 grace2 : Z) (s : State) (i : nat) (r : Run)
    (Hkey : primary_key (runs (db s)))
    (Hrow : nth_error (runs (db s)) i = Some r)
    (Hid : r_id r = run_id)
    (Hactive : r_status r = Running \/ r_status r = Starting) :
  let res := stop_run now1 run_id grace1 s in
  fst res
  = Success ("Run " ++ str run_id ++ " marked for stopping (grace period: "
             ++ str grace1 ++ "s)")
  /\ nth_error (runs (db (snd res))) i = Some (stopping_row now1 r)
  /\ run_events (db (snd res)) = run_events (db s)
  /\ running_processes (snd res) = running_processes s
  /\ stop_run now2 run_id grace2 (snd res)
     = (HTTPException 400 "Cannot stop run with status: stopping", snd res).
Proof.
  intros res. subst res.
  assert (Hin : In r (runs (db s))) by (eapply nth_error_In; eassumption).
  assert (Hfind : find (fun x => r_id x =? run_id) (runs (db s)) = Some r).
  { destruct (find (fun x => r_id x =? run_id) (runs (db s))) as [r0|] eqn:F.
    - apply find_some in F as [H0 Hid0]. apply Z.eqb_eq in Hid0.
      f_equal. eapply primary_key_unique; eauto. congruence.
    - exfalso. apply (find_none _ _ F) in Hin.
      apply Z.eqb_neq in Hin. contradiction. }
  assert (Hw : (r_id r =? run_id) = true) by now apply Z.eqb_eq.
  set (s1 := commit
               (mkStore
                  (sql_update (fun x => r_id x =? run_id)
                     (assign_all [set_status Stopping; set_updated_at now1])
                     (runs (db s)))
                  (run_events (db s))) s).
  assert (Hres : stop_run now1 run_id grace1 s
                 = (Success ("Run " ++ str run_id
                             ++ " marked for stopping (grace period: "
                             ++ str grace1 ++ "s)"), s1)).
  { unfold stop_run. rewrite Hfind.
    destruct Hactive as [-> | ->]; reflexivity. }
  rewrite Hres. cbn [fst snd]. split; [reflexivity|].
  assert (Hrow1 : nth_error (runs (db s1)) i = Some (stopping_row now1 r)).
  { cbn [s1 db commit runs]. rewrite sql_update_nth, Hrow. cbn [option_map].
    now rewrite Hw. }
  split; [exact Hrow1|]. split; [reflexivity|]. split; [reflexivity|].
  assert (Hfind1 : exists r1,
             find (fun x => r_id x =? run_id) (runs (db s1)) = Some r1
             /\ r_status r1 = Stopping).
  { destruct (find (fun x => r_id x =? run_id) (runs (db s1))) as [r1|] eqn:F.
    - exists r1. split; [reflexivity|].
      apply find_some in F as [H1 Hid1].
      cbn [s1 db commit runs] in H1. unfold sql_update in H1.
      apply in_map_iff in H1 as (r0 & Hr0 & _).
      destruct (r_id r0 =? run_id) eqn:E0; [now subst r1|].
      subst r1. congruence.
    - exfalso. apply nth_error_In in Hrow1.
      apply (find_none _ _ F) in Hrow1. cbn [stopping_row r_id] in Hrow1.
      congruence. }
  destruct Hfind1 as (r1 & F1 & Hst1).
  unfold stop_run. rewrite F1, Hst1. reflexivity.
Qed.

Lemma stop_run_marks_once_witness :
  let s := sample_state [sample_run 1 Running] [(1, 4242)] in
  let res := stop_run 200 1 20 s in
  fst res = Success "Run 1 marked for stopping (grace period: 20s)"
  /\ nth_error (runs (db (snd res))) 0
     = Some (stopping_row 200 (sample_run 1 Running))
  /\ run_events (db (snd res)) = run_events (db s)
  /\ running_processes (snd res) = running_processes s
  /\ stop_run 230 1 5 (snd res)
     = (HTTPException 400 "Cannot stop run with status: stopping", snd res).
Proof.
  refine (stop_run_marks_once 200 230 1 20 5
            (sample_state [sample_run 1 Running] [(1, 4242)])
            0 (sample_run 1 Running) _ eq_refl eq_refl (or_introl eq_refl)).
  unfold primary_key. simpl. repeat constructor. intros [].
Defined.

Lemma in_statuses (run_id : Z) (s : State) (a : Status) :
  In a (statuses run_id s)
  <-> exists r, In r (runs (db s)) /\ r_id r = run_id /\ r_status r = a.
Proof.
  unfold statuses. rewrite in_map_iff. split.
  - intros (r & Ha & Hin). apply filter_In in Hin as [Hin Hid].
    apply Z.eqb_eq in Hid. now exists r.
  - intros (r & Hin & Hid & Ha). exists r. split; [assumption|].
    apply filter_In. split; [assumption|now apply Z.eqb_eq].
Qed.

Lemma statuses_rewrite (x : Z) (s s' : State) (keep : Run -> bool)
    (f : Run -> Run) :
  runs (db s') = sql_update keep f (runs (db s)) ->
  (forall r, r_id (f r) = r_id r) ->
  (forall r, In r (runs (db s)) -> r_id r = x -> keep r = true ->
     r_status (f r) = r_status r) ->
  statuses x s' = statuses x s.
Proof.
  intros Hruns Hid Hkeep. unfold statuses. rewrite Hruns. unfold sql_update.
  revert Hkeep. clear Hruns. generalize (runs (db s)) as rows.
  induction rows as [|r rows IH]; intros Hkeep; [reflexivity|].
  cbn [map filter].
  assert (Hsame : r_id (if keep r then f r else r) = r_id r)
    by (destruct (keep r); [apply Hid|reflexivity]).
  rewrite Hsame. destruct (Z.eqb_spec (r_id r) x) as [Heq|Hne].
  - cbn [map]. f_equal.
    + destruct (keep r) eqn:Hk; [|reflexivity].
      apply Hkeep; [now left|assumption|assumption].
    + apply IH. intros r0 Hin. apply Hkeep. now right.
  - apply IH. intros r0 Hin. apply Hkeep. now right.
Qed.

Lemma statuses_update_other (x now_ run_id : Z) (status : Status)
    (kw : Kwargs) (s : State) :
  run_id <> x ->
  statuses x (update_run_status now_ run_id status kw s) = statuses x s.
Proof.
  intros Hne.
  apply (statuses_rewrite x s _ (fun r => r_id r =? run_id)
           (updated_row now_ status kw)).
  - now rewrite update_run_status_db.
  - intros r. apply updated_row_id.
  - intros r _ Hid Hk. apply Z.eqb_eq in Hk. congruence.
Qed.

(** The loop never acts on a stop request: if the run [x] is [stopping]
    (as the stop endpoint leaves it) and its process keeps running, an
    iteration of the loop leaves the run [stopping] and the process
    tracked; nothing in the iteration looks for runs in that status. *)
Theorem tick_ignores_stopping
    (e : Env) (x : Z) (s : State)
    (Hstopping : Forall (fun a => a = Stopping) (statuses x s))
    (Halive : forall pid, In (x, pid) (running_processes s) ->
                poll e pid = None) :
  statuses x (tick e s) = statuses x s
  /\ forall pid, In (x, pid) (running_processes (tick e s))
                 <-> In (x, pid) (running_processes s).
Proof.
  assert (Hst : forall r, In r (runs (db s)) -> r_id r = x ->
                  r_status r = Stopping).
  { intros r Hin Hid. rewrite Forall_forall in Hstopping.
    apply Hstopping. apply in_statuses. now exists r. }
  unfold tick, iteration. rewrite claim_rows_eq.
  destruct (find _ (get_pending_runs e s)) as [run|]; cbn [and_then state_of].
  - split; [|tauto].
    apply (statuses_rewrite x s _
             (fun r => (r_id r =? r_id run)
                       && status_eqb (r_status r) Pending)
             (assign_all [set_status Starting; set_updated_at (now e)]));
      [reflexivity|reflexivity|].
    intros r Hin Hid Hk. apply andb_true_iff in Hk as [_ Hk].
    apply status_eqb_eq in Hk. rewrite (Hst r Hin Hid) in Hk. discriminate.
  - rewrite monitor_processes_eq.
    destruct (first_exited e (running_processes s)) as [[run_id c]|] eqn:F;
      cbn [and_then state_of].
    + split; [|tauto]. apply statuses_update_other.
      apply first_exited_tracked in F as (pid & Hin & Hpid).
      intros ->. rewrite (Halive pid Hin) in Hpid. discriminate.
    + unfold check_heartbeats. rewrite check_rows_eq.
      destruct (first_gone e (stale_runs e s)) as [[run_id pid]|] eqn:G;
        cbn [state_of]; [|split; [reflexivity|tauto]].
      split; [|tauto]. apply statuses_update_other.
      destruct (first_gone_some e s run_id pid G)
        as (r2 & Hin2 & Hid2 & _ & Hd2).
      unfold doomed in Hd2. apply andb_true_iff in Hd2 as [Hs2 _].
      apply stale_is_running in Hs2.
      intros Heq. rewrite (Hst r2 Hin2) in Hs2; [discriminate|congruence].
Qed.

Lemma tick_ignores_stopping_witness :
  let s := sample_state [sample_run 1 Stopping; sample_run 2 Pending]
             [(1, 4242)] in
  statuses 1 (tick quiet_env s) = statuses 1 s
  /\ forall pid, In (1, pid) (running_processes (tick quiet_env s))
                 <-> In (1, pid) (running_processes s).
Proof.
  refine (tick_ignores_stopping quiet_env 1
            (sample_state [sample_run 1 Stopping; sample_run 2 Pending]
               [(1, 4242)]) _ _).
  - simpl. repeat constructor.
  - intros pid _. reflexivity.
Defined.

(** ** The other endpoints *)

Lemma find_id_none (run_id : Z) (rows : list Run) :
  ~ In run_id (map r_id rows) ->
  find (fun r => r_id r =? run_id) rows = None.
Proof.
  intros Hn. destruct (find _ rows) as [r|] eqn:F; [|reflexivity].
  apply find_some in F as [Hin Hid]. apply Z.eqb_eq in Hid.
  exfalso. apply Hn. rewrite <- Hid. now apply in_map.
Qed.

Lemma find_app_none {A : Type} (p : A -> bool) (l l' : list A) :
  find p l = None -> find p (l ++ l') = find p l'.
Proof.
  induction l as [|a l IH]; cbn [find app]; [reflexivity|].
  destruct (p a); [discriminate|exact IH].
Qed.

(** A run that was created can be read back and is offered to the
    service: with an id the table does not hold yet, [create_run] keeps
    [id] a key and the old rows and events in place, [get_run] answers the
    new row, which is [pending] with every column of the service empty,
    and [get_pending_runs] returns it among the pending runs.  A
    [claim_run] for it marks it [starting] and raises. *)
Theorem create_run_round_trip
    (e : Env) (now_ new_id : Z) (run : RunCreate) (s : State)
    (Hkey : primary_key (runs (db s)))
    (Hfresh : ~ In new_id (map r_id (runs (db s)))) :
  let s' := snd (create_run now_ new_id run s) in
  fst (create_run now_ new_id run s) = (new_id, "Run created successfully")
  /\ primary_key (runs (db s'))
  /\ (forall i r, nth_error (runs (db s)) i = Some r ->
        nth_error (runs (db s')) i = Some r)
  /\ run_events (db s') = run_events (db s)
  /\ get_run new_id s' = Answer (created_row now_ new_id run)
  /\ In (created_row now_ new_id run) (get_pending_runs e s')
  /\ claim_run (now e) new_id s'
     = Raises insert_rejected (claim_update (now e) new_id s')
  /\ statuses new_id (claim_update (now e) new_id s') = [Starting].
Proof.
  intros s'. subst s'. cbn [create_run fst snd].
  assert (Hfind : find (fun r => r_id r =? new_id) (runs (db s)) = None)
    by now apply find_id_none.
  split; [reflexivity|].
  split; [|split; [|split; [reflexivity|split; [|split; [|split]]]]].
  - unfold primary_key in *. cbn [db commit runs]. rewrite map_app.
    cbn [map created_row r_id].
    apply NoDup_app; [assumption|repeat constructor; intros []|].
    intros x Hx [<-|[]]. contradiction.
  - intros i r Hi. cbn [db commit runs]. rewrite nth_error_app1; [assumption|].
    apply nth_error_Some. congruence.
  - unfold get_run. cbn [db commit runs].
    rewrite find_app_none by assumption.
    cbn [find created_row r_id]. now rewrite Z.eqb_refl.
  - apply get_pending_runs_In. exists (created_row now_ new_id run).
    cbn [db commit runs]. split; [|split; reflexivity].
    apply in_or_app. right. now left.
  - rewrite claim_run_eq.
    replace (claimable new_id _) with true; [reflexivity|].
    symmetry. apply claimable_true. exists (created_row now_ new_id run).
    cbn [db commit runs]. split; [|split; reflexivity].
    apply in_or_app. right. now left.
  - unfold statuses, claim_update. cbn [db commit runs]. unfold sql_update.
    rewrite map_app, filter_app, map_app.
    cbn [map created_row r_id r_status status_eqb filter].
    rewrite Z.eqb_refl. cbn [andb assign_all fold_left assign r_id filter map
      r_status]. rewrite Z.eqb_refl. cbn [map r_status].
    replace (filter _ (map _ (runs (db s)))) with (@nil Run); [reflexivity|].
    symmetry. clear Hfind Hkey.
    induction (runs (db s)) as [|r rows IH]; [reflexivity|].
    cbn [map filter].
    assert (Hne : r_id r <> new_id).
    { intros Heq. apply Hfresh. cbn [map]. now left. }
    replace (r_id r =? new_id) with false by (symmetry; now apply Z.eqb_neq).
    cbn [andb]. replace (r_id r =? new_id) with false
      by (symmetry; now apply Z.eqb_neq).
    apply IH. intros Hin. apply Hfresh. cbn [map]. now right.
Qed.

Lemma create_run_round_trip_witness :
  let s := sample_state [sample_run 1 Stopped] [] in
  let run := mkRunCreate 7 [("x", "1")] None (Some "ops") in
  let s' := snd (create_run 300 2 run s) in
  get_run 2 s' = Answer (created_row 300 2 run)
  /\ In (created_row 300 2 run) (get_pending_runs quiet_env s').
Proof.
  pose proof (create_run_round_trip quiet_env 300 2
                (mkRunCreate 7 [("x", "1")] None (Some "ops"))
                (sample_state [sample_run 1 Stopped] [])) as H.
  cbv zeta in H. destruct H as (_ & _ & _ & _ & H1 & H2 & _).
  - unfold primary_key. simpl. repeat constructor. intros [].
  - simpl. intros [H1|[]]. discriminate.
  - split; assumption.
Defined.

Lemma readlines_remove_same (path : string) (fs : Files) :
  readlines path (os_remove path fs) = None.
Proof.
  unfold os_remove. induction fs as [|[p ls] fs IH]; cbn [filter fst readlines];
    [reflexivity|].
  destruct (String.eqb p path) eqn:E; cbn [negb readlines]; [exact IH|].
  now rewrite E.
Qed.

Lemma readlines_remove_other (path other : string) (fs : Files) :
  other <> path ->
  readlines other (os_remove path fs) = readlines other fs.
Proof.
  intros Hne. unfold os_remove.
  induction fs as [|[p ls] fs IH]; cbn [filter fst readlines]; [reflexivity|].
  destruct (String.eqb_spec p path) as [->|Hp]; cbn [negb readlines].
  - destruct (String.eqb_spec path other); [congruence|exact IH].
  - now rewrite IH.
Qed.

(** [delete_run] refuses a run that is [running], [starting] or [stopping]
    and then changes nothing.  Any other run it deletes with all that
    belongs to it: afterwards [get_run] answers 404 for the id, no event of
    the run is left and its log file is gone, while the other rows, the
    events of other runs and the other files are as before. *)
Theorem delete_run_cascades
    (run_id : Z) (s : State) (fs : Files) (r : Run)
    (Hfind : find (fun x => r_id x =? run_id) (runs (db s)) = Some r) :
  (r_status r = Running \/ r_status r = Starting \/ r_status r = Stopping ->
     delete_run run_id s fs
     = (Refusal 400 "Cannot delete running run", s, fs))
  /\ (r_status r <> Running -> r_status r <> Starting ->
      r_status r <> Stopping ->
      let s' := snd (fst (delete_run run_id s fs)) in
      let fs' := snd (delete_run run_id s fs) in
      fst (fst (delete_run run_id s fs))
      = Answer ("Run " ++ str run_id ++ " deleted successfully")%string
      /\ get_run run_id s' = Refusal 404 "Run not found"
      /\ events_of run_id s' = []
      /\ readlines (log_file run_id) fs' = None
      /\ runs (db s') = filter (fun x => negb (r_id x =? run_id)) (runs (db s))
      /\ (forall x, x <> run_id -> events_of x s' = events_of x s)
      /\ (forall path, path <> log_file run_id ->
            readlines path fs' = readlines path fs)).
Proof.
  split.
  - intros Hst. unfold delete_run. rewrite Hfind.
    destruct Hst as [-> |[-> | ->]]; reflexivity.
  - intros H1 H2 H3 s' fs'. subst s' fs'.
    assert (Hres : delete_run run_id s fs
                   = (Answer ("Run " ++ str run_id
                              ++ " deleted successfully")%string,
                      commit (delete_rows run_id (db s)) s,
                      if path_exists (log_file run_id) fs
                      then os_remove (log_file run_id) fs else fs)).
    { unfold delete_run. rewrite Hfind.
      destruct (r_status r); try reflexivity; contradiction. }
    rewrite Hres. cbn [fst snd]. split; [reflexivity|].
    split; [|split; [|split; [|split; [reflexivity|split]]]].
    + unfold get_run. cbn [db commit delete_rows runs].
      destruct (find _ (filter _ _)) as [r0|] eqn:F; [|reflexivity].
      apply find_some in F as [Hin Hid]. apply filter_In in Hin as [_ Hn].
      rewrite Hid in Hn. discriminate.
    + unfold events_of. cbn [db commit delete_rows run_events].
      destruct (filter _ (filter _ _)) as [|ev l] eqn:F; [reflexivity|].
      assert (Hev : In ev (filter (fun ev0 => e_run_id ev0 =? run_id)
                             (filter (fun ev0 => negb (e_run_id ev0 =? run_id))
                                (run_events (db s)))))
        by (rewrite F; now left).
      apply filter_In in Hev as [Hev Hid]. apply filter_In in Hev as [_ Hn].
      rewrite Hid in Hn. discriminate.
    + unfold path_exists.
      destruct (readlines (log_file run_id) fs) eqn:R;
        [apply readlines_remove_same|exact R].
    + intros x Hx. unfold events_of.
      cbn [db commit delete_rows run_events].
      induction (run_events (db s)) as [|ev l IH]; cbn [filter];
        [reflexivity|].
      destruct (Z.eqb_spec (e_run_id ev) run_id) as [Heq|Hne]; cbn [negb filter].
      * destruct (Z.eqb_spec (e_run_id ev) x); [congruence|exact IH].
      * now rewrite IH.
    + intros path Hp. destruct (path_exists (log_file run_id) fs);
        [now apply readlines_remove_other|reflexivity].
Qed.

Lemma delete_run_cascades_witness :
  let s := mkState
             (mkStore [sample_run 1 Stopped; sample_run 2 Running]
                [mkEvent 1 100 "info" "Run claimed by runner service";
                 mkEvent 2 100 "info" "Run claimed by runner service"])
             [(2, 4343)] [] [] in
  let fs := [("logs/run_1.log", ["a"; "b"]); ("logs/run_2.log", ["c"])] in
  let s' := snd (fst (delete_run 1 s fs)) in
  let fs' := snd (delete_run 1 s fs) in
  get_run 1 s' = Refusal 404 "Run not found"
  /\ events_of 1 s' = []
  /\ readlines (log_file 1) fs' = None
  /\ runs (db s') = [sample_run 2 Running].
Proof.
  pose proof (delete_run_cascades 1
                (mkState
                   (mkStore [sample_run 1 Stopped; sample_run 2 Running]
                      [mkEvent 1 100 "info" "Run claimed by runner service";
                       mkEvent 2 100 "info" "Run claimed by runner service"])
                   [(2, 4343)] [] [])
                [("logs/run_1.log", ["a"; "b"]); ("logs/run_2.log", ["c"])]
                (sample_run 1 Stopped) eq_refl) as [_ H].
  cbv zeta in H.
  destruct H as (_ & H1 & H2 & H3 & H4 & _);
    [discriminate|discriminate|discriminate|].
  repeat split; assumption.
Defined.

Lemma slice_from_negative {A : Type} (k : Z) (l : list A) :
  0 < k < Z.of_nat (List.length l) ->
  slice_from (- k) l = skipn (List.length l - Z.to_nat k) l.
Proof.
  intros Hk. unfold slice_from.
  replace (- k <? 0) with true by (symmetry; apply Z.ltb_lt; lia).
  f_equal. lia.
Qed.

Lemma slice_from_positive {A : Type} (k : Z) (l : list A) :
  0 <= k -> slice_from k l = skipn (Z.to_nat k) l.
Proof.
  intros Hk. unfold slice_from.
  replace (k <? 0) with false by (symmetry; apply Z.ltb_ge; lia).
  destruct (Z.le_ge_cases k (Z.of_nat (List.length l))) as [Hle|Hge].
  - now rewrite Z.min_l.
  - rewrite Z.min_r, Nat2Z.id by assumption.
    rewrite skipn_all. symmetry. apply skipn_all2. lia.
Qed.

(** [get_run_logs] answers 404 for an unknown run and "No log file found"
    for a run without a log file.  Otherwise it counts all the lines and,
    for a positive [tail], returns the last [tail] of them (all of them
    when there are no more than [tail]).  With [tail = 0] it returns the
    whole file, and with a negative [tail] the file without its first
    [-tail] lines. *)
Theorem get_run_logs_tail
    (run_id tail_ : Z) (s : State) (fs : Files) :
  (find (fun r => r_id r =? run_id) (runs (db s)) = None ->
     get_run_logs run_id tail_ s fs = Refusal 404 "Run not found")
  /\ (forall r, find (fun x => r_id x =? run_id) (runs (db s)) = Some r ->
      (readlines (log_file run_id) fs = None ->
         get_run_logs run_id tail_ s fs
         = Answer (NoLogFile "No log file found"))
      /\ (forall lines, readlines (log_file run_id) fs = Some lines ->
          exists logs,
            get_run_logs run_id tail_ s fs
            = Answer (Logs logs (Z.of_nat (List.length lines)))
            /\ (0 < tail_ ->
                logs = skipn (List.length lines - Z.to_nat tail_) lines
                /\ List.length logs
                   = Nat.min (Z.to_nat tail_) (List.length lines))
            /\ (tail_ = 0 -> logs = lines)
            /\ (tail_ < 0 -> logs = skipn (Z.to_nat (- tail_)) lines))).
Proof.
  split.
  - intros F. unfold get_run_logs. now rewrite F.
  - intros r F. unfold get_run_logs. rewrite F. split.
    + now intros ->.
    + intros lines ->. eexists. split; [reflexivity|].
      destruct (Z.gtb_spec (Z.of_nat (List.length lines)) tail_) as [Hgt|Hle].
      * split; [|split].
        -- intros Hpos. rewrite slice_from_negative by lia.
           split; [reflexivity|]. rewrite length_skipn. lia.
        -- intros ->. apply (slice_from_positive 0). lia.
        -- intros Hneg. apply slice_from_positive. lia.
      * split; [|split].
        -- intros Hpos.
           replace (List.length lines - Z.to_nat tail_)%nat with 0%nat by lia.
           split; [reflexivity|]. lia.
        -- reflexivity.
        -- intros Hneg. lia.
Qed.

Lemma get_run_logs_tail_witness :
  let s := sample_state [sample_run 1 Running] [] in
  let fs := [("logs/run_1.log", ["a"; "b"; "c"])] in
  exists logs,
    get_run_logs 1 0 s fs = Answer (Logs logs 3)
    /\ (0 = 0 -> logs = ["a"; "b"; "c"]).
Proof.
  destruct (proj2 (proj2 (get_run_logs_tail 1 0
                            (sample_state [sample_run 1 Running] [])
                            [("logs/run_1.log", ["a"; "b"; "c"])])
                     (sample_run 1 Running) eq_refl)
              ["a"; "b"; "c"] eq_refl) as (logs & H1 & _ & H2 & _).
  exists logs. split; assumption.
Defined.

Lemma count_rows_cons (p : Run -> bool) (r : Run) (rows : list Run) :
  count_rows p (r :: rows) = (if p r then 1 else 0) + count_rows p rows.
Proof.
  unfold count_rows. cbn [filter]. destruct (p r); cbn [List.length]; lia.
Qed.

Lemma count_rows_bounds (p : Run -> bool) (rows : list Run) :
  0 <= count_rows p rows <= Z.of_nat (List.length rows).
Proof.
  induction rows as [|r rows IH]; [cbn; lia|].
  rewrite count_rows_cons. cbn [List.length]. destruct (p r); lia.
Qed.

Lemma count_of_stats (now_ : Z) (first second : Store) (st : Status) :
  count_of st (get_dashboard_stats now_ first second)
  = count_rows (fun r => status_eqb (r_status r) st) (runs first).
Proof.
  unfold count_of. cbn [get_dashboard_stats status_counts].
  pose proof (count_rows_bounds (fun r => status_eqb (r_status r) st)
                (runs first)) as Hb.
  destruct (Z.ltb_spec 0
              (count_rows (fun r => status_eqb (r_status r) st) (runs first)));
    [reflexivity|lia].
Qed.

Lemma sum_all_statuses (rows : list Run) :
  fold_right
    (fun st acc => count_rows (fun r => status_eqb (r_status r) st) rows + acc)
    0 all_statuses
  = Z.of_nat (List.length rows).
Proof.
  induction rows as [|r rows IH]; [reflexivity|].
  cbn [all_statuses fold_right] in *.
  rewrite !count_rows_cons. cbn [List.length].
  destruct (r_status r); cbn [status_eqb]; lia.
Qed.

(** The counts of the dashboard.  The counts by status are positive and
    add up to the number of rows the first statement saw; [total_runs] is
    the number of rows the second statement saw, and [runs_24h] and
    [currently_running] lie between 0 and [total_runs].  When no commit
    changes [runs] between the two statements, the counts by status add up
    to [total_runs], and [currently_running] is the count listed for
    [running] (0 when none is listed). *)
Theorem get_dashboard_stats_add_up (now_ : Z) (first second : Store) :
  let stats := get_dashboard_stats now_ first second in
  (forall st n, status_counts stats st = Some n -> 0 < n)
  /\ sum_counts stats = Z.of_nat (List.length (runs first))
  /\ total_runs stats = Z.of_nat (List.length (runs second))
  /\ 0 <= runs_24h stats <= total_runs stats
  /\ 0 <= currently_running stats <= total_runs stats
  /\ (runs first = runs second ->
      sum_counts stats = total_runs stats
      /\ currently_running stats = count_of Running stats).
Proof.
  intros stats. subst stats.
  assert (Hsum : sum_counts (get_dashboard_stats now_ first second)
                 = Z.of_nat (List.length (runs first))).
  { unfold sum_counts. rewrite <- (sum_all_statuses (runs first)).
    cbn [all_statuses fold_right]. now rewrite !count_of_stats. }
  split; [|split; [exact Hsum|split; [reflexivity|split; [|split]]]].
  - intros st n. cbn [get_dashboard_stats status_counts].
    destruct (Z.ltb_spec 0
                (count_rows (fun r => status_eqb (r_status r) st)
                   (runs first))); [|discriminate].
    intros [= <-]. assumption.
  - apply count_rows_bounds.
  - apply count_rows_bounds.
  - intros Hsame. split.
    + rewrite Hsum, Hsame. reflexivity.
    + rewrite count_of_stats, Hsame. reflexivity.
Qed.

Lemma get_dashboard_stats_add_up_witness :
  let st := mkStore [sample_run 1 Running; sample_run 2 Stopped] [] in
  let stats := get_dashboard_stats 200 st st in
  sum_counts stats = total_runs stats
  /\ currently_running stats = count_of Running stats.
Proof.
  exact (proj2 (proj2 (proj2 (proj2 (proj2
           (get_dashboard_stats_add_up 200
              (mkStore [sample_run 1 Running; sample_run 2 Stopped] [])
              (mkStore [sample_run 1 Running; sample_run 2 Stopped] []))))))
           eq_refl).
Defined.

(** ** The loop of the child *)

Lemma last_cons {A : Type} (a d : A) (l : list A) :
  List.last (a :: l) d = List.last l a.
Proof.
  revert a d. induction l as [|b l IH]; intros a d; [reflexivity|].
  change (List.last (a :: b :: l) d) with (List.last (b :: l) d).
  now rewrite !IH.
Qed.

Lemma last_default {A : Type} (l : list A) (d d' : A) :
  l <> [] -> List.last l d = List.last l d'.
Proof.
  destruct l as [|a l]; [contradiction|]. intros _.
  now rewrite !last_cons.
Qed.

Lemma heartbeat_loop_fresh (clock : list (Z * Z)) (last0 run_id : Z)
    (s : State) :
  clock <> [] ->
  fst (List.last clock (last0, last0))
  - fst (heartbeat_loop clock last0 run_id s) < 10.
Proof.
  revert last0 s. induction clock as [|[c n] rest IH]; intros last0 s Hne;
    [contradiction|].
  destruct rest as [|entry rest].
  - cbn [heartbeat_loop List.last fst].
    destruct (Z.geb_spec (c - last0) 10); cbn [fst]; lia.
  - rewrite last_cons. cbn [heartbeat_loop].
    assert (Hr : entry :: rest <> []) by discriminate.
    destruct (c - last0 >=? 10).
    + rewrite (last_default (entry :: rest) (c, n) (c, c) Hr).
      apply (IH c); assumption.
    + rewrite (last_default (entry :: rest) (c, n) (last0, last0) Hr).
      apply (IH last0); assumption.
Qed.

Lemma heartbeat_loop_sent (clock : list (Z * Z)) (last0 run_id : Z)
    (s : State) (i : nat) (r : Run) :
  nth_error (runs (db s)) i = Some r ->
  r_id r = run_id ->
  heartbeat_loop clock last0 run_id s = (last0, s)
  \/ exists c n,
       In (c, n) clock
       /\ fst (heartbeat_loop clock last0 run_id s) = c
       /\ nth_error (runs (db (snd (heartbeat_loop clock last0 run_id s)))) i
          = Some (heartbeat_row n r).
Proof.
  revert last0 s r. induction clock as [|[c n] rest IH];
    intros last0 s r Hrow Hid; [now left|].
  cbn [heartbeat_loop]. destruct (c - last0 >=? 10).
  - right.
    assert (H1 : nth_error (runs (db (update_heartbeat n run_id s))) i
                 = Some (heartbeat_row n r)).
    { rewrite (update_heartbeat_nth n run_id s i r Hrow).
      now replace (r_id r =? run_id) with true
        by (symmetry; now apply Z.eqb_eq). }
    destruct (IH c (update_heartbeat n run_id s) (heartbeat_row n r) H1 Hid)
      as [Heq|(c' & n' & Hin & Hl & Hr)].
    + exists c, n. rewrite Heq. cbn [fst snd].
      split; [now left|]. split; [reflexivity|exact H1].
    + exists c', n'. split; [now right|]. split; [assumption|exact Hr].
  - destruct (IH last0 s r Hrow Hid) as [Heq|(c' & n' & Hin & Hl & Hr)];
      [now left|right].
    exists c', n'. split; [now right|]. split; assumption.
Qed.

Lemma heartbeat_loop_early (clock : list (Z * Z)) (last0 run_id : Z)
    (s : State) :
  (forall c n, In (c, n) clock -> c - last0 < 10) ->
  heartbeat_loop clock last0 run_id s = (last0, s).
Proof.
  induction clock as [|[c n] rest IH]; intros Hc; [reflexivity|].
  cbn [heartbeat_loop].
  replace (c - last0 >=? 10) with false.
  - apply IH. intros c' n' Hin. apply (Hc c' n'). now right.
  - symmetry. specialize (Hc c n (or_introl eq_refl)).
    destruct (Z.geb_spec (c - last0) 10); [lia|reflexivity].
Qed.

(** The heartbeats of the child: the loop writes none while its clock is
    less than 10 seconds past the start, so a child stopped that early
    leaves the store as it found it.  A heartbeat it writes changes only
    [last_heartbeat] of the row of the run, and when the loop ends, the
    iteration of the last heartbeat (or the start, if there was none) lies
    less than 10 seconds before the last iteration.  [main] then returns
    0. *)
Theorem heartbeat_loop_keeps_fresh
    (clock : list (Z * Z)) (start run_id : Z) (s : State)
    (i : nat) (r : Run)
    (Hrow : nth_error (runs (db s)) i = Some r)
    (Hid : r_id r = run_id)
    (Hclock : clock <> []) :
  let res := heartbeat_loop clock start run_id s in
  fst (List.last clock (start, start)) - fst res < 10
  /\ (res = (start, s)
      \/ exists c n,
           In (c, n) clock
           /\ fst res = c
           /\ nth_error (runs (db (snd res))) i = Some (heartbeat_row n r))
  /\ ((forall c n, In (c, n) clock -> c - start < 10) -> res = (start, s))
  /\ main start clock run_id s = (0, snd res).
Proof.
  intros res. subst res. split; [now apply heartbeat_loop_fresh|].
  split; [now apply heartbeat_loop_sent|].
  split; [apply heartbeat_loop_early|reflexivity].
Qed.

Lemma heartbeat_loop_keeps_fresh_witness :
  let s := sample_state [sample_run 1 Running] [(1, 4242)] in
  let clock := [(201, 201); (205, 205); (210, 211); (215, 215); (221, 222)] in
  let res := heartbeat_loop clock 200 1 s in
  fst (List.last clock (200, 200)) - fst res < 10
  /\ (res = (200, s)
      \/ exists c n,
           In (c, n) clock
           /\ fst res = c
           /\ nth_error (runs (db (snd res))) 0
              = Some (heartbeat_row n (sample_run 1 Running))).
Proof.
  pose proof (heartbeat_loop_keeps_fresh
                [(201, 201); (205, 205); (210, 211); (215, 215); (221, 222)]
                200 1 (sample_state [sample_run 1 Running] [(1, 4242)])
                0 (sample_run 1 Running) eq_refl eq_refl) as H.
  cbv zeta in H. destruct H as (H1 & H2 & _); [discriminate|].
  split; assumption.
Defined.

(** ** The calls of the code as paths of the system *)



